(** * lib_caida_collector: the CAIDA relationship collector

    A shallow embedding of [lib_caida_collector/caida_collector.py]
    (class [CaidaCollector]) and the properties of its cache-aware fetch
    and line classifier.

    Conventions of the embedding:
    - a Python [str] is a [string] of ASCII characters;
    - a Python [set] is a [gset];
    - a raised exception is the [Raise] branch of [result];
    - the file system, the network log and the collaborators of the
      collector are explicit ([world], Section [Collector]). *)

From Stdlib Require Import ZArith Ascii String List Lia Bool DecimalString.
From Stdlib Require Import DecimalN DecimalPos.
From stdpp Require Import base option list gmap strings.

Local Open Scope Z_scope.

(** ** Python exceptions and results *)

Inductive exn : Type :=
| ValueError_unpack_not_enough (expected got : nat)
    (* "not enough values to unpack (expected 4, got 1)" *)
| ValueError_unpack_too_many (expected : nat)
    (* "too many values to unpack (expected 4)" *)
| ValueError_int (literal : string)
    (* "invalid literal for int() with base 10: ..." *)
| IndexError
    (* "list index out of range" *)
| FileNotFoundError (path : string)
| ExternalError (origin : string).
    (* raised inside a collaborator: transport, bz2, graph builder *)

Inductive result (A : Type) : Type :=
| Ok (a : A)
| Raise (e : exn).
Arguments Ok {A} a.
Arguments Raise {A} e.

#[global] Instance result_ret : MRet result := fun _ a => Ok a.
#[global] Instance result_bind : MBind result := fun _ _ f m =>
  match m with
  | Ok a => f a
  | Raise e => Raise e
  end.

Definition is_ValueError (e : exn) : bool :=
  match e with
  | ValueError_unpack_not_enough _ _ | ValueError_unpack_too_many _
  | ValueError_int _ => true
  | _ => false
  end.

Definition raises {A} (r : result A) : Prop := exists e, r = Raise e.

Definition raises_ValueError {A} (r : result A) : Prop :=
  exists e, r = Raise e /\ is_ValueError e = true.

(** ** The [str] methods the collector uses *)

Module Py.

(** [s.startswith(p)] *)
Fixpoint startswith (s p : string) {struct p} : bool :=
  match p, s with
  | EmptyString, _ => true
  | String _ _, EmptyString => false
  | String b p', String a s' => Ascii.eqb a b && startswith s' p'
  end.

(** [sub in s] *)
Fixpoint contains (s sub : string) : bool :=
  startswith s sub ||
  match s with
  | EmptyString => false
  | String _ s' => contains s' sub
  end.

(** [s.split(sep)] for a separator of one character, which is what every
    call of the collector passes (":", " " and "|"). Adjacent separators
    give empty fields and the result is never empty. *)
Fixpoint split (sep : ascii) (s : string) : list string :=
  match s with
  | EmptyString => [EmptyString]
  | String c s' =>
      if Ascii.eqb c sep then EmptyString :: split sep s'
      else match split sep s' with
           | [] => [String c EmptyString]
           | w :: ws => String c w :: ws
           end
  end.

(** [sep.join(l)], the inverse of [split]: splitting loses nothing. *)
Fixpoint join (sep : ascii) (l : list string) : string :=
  match l with
  | [] => EmptyString
  | [w] => w
  | w :: ws => w +:+ String sep (join sep ws)
  end.

(** [l[-1]] *)
Definition last_item {A} (l : list A) : result A :=
  match last l with
  | Some x => Ok x
  | None => Raise IndexError
  end.

(** [l[0]] *)
Definition first_item {A} (l : list A) : result A :=
  match l with
  | x :: _ => Ok x
  | [] => Raise IndexError
  end.

Definition code (c : ascii) : N := N_of_ascii c.

(** Whitespace of [str.strip()] (the ASCII part of [str.isspace]):
    TAB, LF, VT, FF, CR, the separators FS GS RS US, and the space. *)
Definition isspace (c : ascii) : bool :=
  let n := code c in
  ((9 <=? n) && (n <=? 13) || (28 <=? n) && (n <=? 31) || (n =? 32))%N.

(** Whitespace that [int()] skips around an ASCII literal: C's isspace. *)
Definition is_c_space (c : ascii) : bool :=
  let n := code c in
  ((9 <=? n) && (n <=? 13) || (n =? 32))%N.

Fixpoint lstrip_with (sp : ascii -> bool) (s : string) : string :=
  match s with
  | EmptyString => EmptyString
  | String c s' => if sp c then lstrip_with sp s' else s
  end.

Fixpoint rstrip_with (sp : ascii -> bool) (s : string) : string :=
  match s with
  | EmptyString => EmptyString
  | String c s' =>
      match rstrip_with sp s' with
      | EmptyString => if sp c then EmptyString else String c EmptyString
      | r => String c r
      end
  end.

Definition strip_with (sp : ascii -> bool) (s : string) : string :=
  rstrip_with sp (lstrip_with sp s).

(** [s.strip()] *)
Definition strip (s : string) : string := strip_with isspace s.

Definition digit_val (c : ascii) : option Z :=
  let n := code c in
  if ((48 <=? n) && (n <=? 57))%N then Some (Z.of_N n - 48) else None.

(** The digits of a base-10 literal: at least one digit, and single
    underscores allowed between digits only. *)
Fixpoint parse_digits (acc : Z) (after_digit : bool) (s : string) : option Z :=
  match s with
  | EmptyString => if after_digit then Some acc else None
  | String c s' =>
      match digit_val c with
      | Some d => parse_digits (10 * acc + d) true s'
      | None =>
          if Ascii.eqb c "_" && after_digit then parse_digits acc false s'
          else None
      end
  end.

Definition parse_int (s : string) : option Z :=
  match strip_with is_c_space s with
  | EmptyString => None
  | String c ds =>
      if Ascii.eqb c "-" then Z.opp <$> parse_digits 0 false ds
      else if Ascii.eqb c "+" then parse_digits 0 false ds
      else parse_digits 0 false (String c ds)
  end.

(** [int(s)] on a [str]: whitespace, an optional sign, decimal digits.
    The interpreter's cap on the number of digits of a literal
    ([sys.set_int_max_str_digits]) is left out. *)
Definition int (s : string) : result Z :=
  match parse_int s with
  | Some n => Ok n
  | None => Raise (ValueError_int s)
  end.

(** [f.readlines()] of a file opened in text mode with the default
    universal newlines: a line ends at LF, CR or CR LF, each ending is
    handed over as a single LF, and the lines keep their ending. *)
Fixpoint universal_newlines (s : string) : string :=
  match s with
  | EmptyString => EmptyString
  | String c s' =>
      if Ascii.eqb c "013" then
        match s' with
        | String c' s'' =>
            if Ascii.eqb c' "010" then String "010" (universal_newlines s'')
            else String "010" (universal_newlines s')
        | EmptyString => String "010" EmptyString
        end
      else String c (universal_newlines s')
  end.

Fixpoint lines_keepends (s : string) : list string :=
  match s with
  | EmptyString => []
  | String c s' =>
      if Ascii.eqb c "010" then String c EmptyString :: lines_keepends s'
      else match lines_keepends s' with
           | [] => [String c EmptyString]
           | l :: ls => String c l :: ls
           end
  end.

Definition readlines (content : string) : list string :=
  lines_keepends (universal_newlines content).

Definition not_dash (c : ascii) : bool := negb (Ascii.eqb c "-").

(** Every character of [s] satisfies [f]; used in statements only. *)
Fixpoint all_chars (f : ascii -> bool) (s : string) : bool :=
  match s with
  | EmptyString => true
  | String c s' => f c && all_chars f s'
  end.

End Py.

(** ** The link classes

    [customer_provider_link.py] and [peer_link.py] belong to the package
    but are outside the file embedded here; only their constructor calls
    are. *)

(** Modelled from the spec: the class [CustomerProviderLink] (imported as
    [CPLink]), "an ordered pair (providerASN, customerASN)" where "two
    links with the same ordered pair are the same entity". *)
Record CPLink : Type := new_CPLink { provider_asn : Z; customer_asn : Z }.

(** Modelled from the spec: the class [PeerLink], "an unordered pair of
    ASNs" whose identity comes "from a canonicalized, order-independent
    representation of the pair": the constructor stores the two ASNs in
    ascending order. *)
Record PeerLink : Type := canonical_PeerLink { peer_asns : Z * Z }.

Definition new_PeerLink (peer1_asn peer2_asn : Z) : PeerLink :=
  canonical_PeerLink (Z.min peer1_asn peer2_asn, Z.max peer1_asn peer2_asn).

#[global] Instance CPLink_eq_dec : EqDecision CPLink.
Proof. solve_decision. Defined.
#[global] Instance PeerLink_eq_dec : EqDecision PeerLink.
Proof. solve_decision. Defined.

#[global] Program Instance CPLink_countable : Countable CPLink :=
  inj_countable' (fun l => (provider_asn l, customer_asn l))
                 (fun p => new_CPLink p.1 p.2) _.
Next Obligation. by intros []. Qed.

#[global] Program Instance PeerLink_countable : Countable PeerLink :=
  inj_countable' peer_asns canonical_PeerLink _.
Next Obligation. by intros []. Qed.

(** ** Graph building funcs: the line classifier *)

(** [a, b, c, d = l] *)
Definition unpack4 {A} (l : list A) : result (A * A * A * A) :=
  match l with
  | [a; b; c; d] => Ok (a, b, c, d)
  | _ =>
      if (length l <? 4)%nat
      then Raise (ValueError_unpack_not_enough 4 (length l))
      else Raise (ValueError_unpack_too_many 4)
  end.

(** [for asn in tokens: s.add(int(asn))], the loop shared by
    [_extract_input_clique] and [_extract_ixp_ases]. *)
Fixpoint add_asns (tokens : list string) (s : gset Z) : result (gset Z) :=
  match tokens with
  | [] => Ok s
  | asn :: rest => n ← Py.int asn; add_asns rest ({[n]} ∪ s)
  end.

Definition _extract_input_clique (line : string) (input_clique : gset Z)
  : result (gset Z) :=
  tail ← Py.last_item (Py.split ":" line);
  add_asns (Py.split " " (Py.strip tail)) input_clique.

Definition _extract_ixp_ases (line : string) (ixps : gset Z)
  : result (gset Z) :=
  tail ← Py.last_item (Py.split ":" line);
  add_asns (Py.split " " (Py.strip tail)) ixps.

(** The keyword arguments are evaluated in the order they are written:
    [int(customer_asn)] first. *)
Definition _extract_provider_customers (line : string) (cp_links : gset CPLink)
  : result (gset CPLink) :=
  '(provider_asn, customer_asn, _, source) ← unpack4 (Py.split "|" line);
  c ← Py.int customer_asn;
  p ← Py.int provider_asn;
  Ok ({[new_CPLink p c]} ∪ cp_links).

Definition _extract_peers (line : string) (peer_links : gset PeerLink)
  : result (gset PeerLink) :=
  '(peer1_asn, peer2_asn, _, source) ← unpack4 (Py.split "|" line);
  p1 ← Py.int peer1_asn;
  p2 ← Py.int peer2_asn;
  Ok ({[new_PeerLink p1 p2]} ∪ peer_links).

(** The four sets, in the order [_get_ases] returns them. *)
Definition ases : Type := gset CPLink * gset PeerLink * gset Z * gset Z.

(** The body of the [for line in lines] loop of [_get_ases]. *)
Definition classify_line (line : string) (st : ases) : result ases :=
  let '(cp_links, peer_links, ixps, input_clique) := st in
  if Py.startswith line "# input clique" then
    input_clique' ← _extract_input_clique line input_clique;
    Ok (cp_links, peer_links, ixps, input_clique')
  else if Py.startswith line "# IXP ASes" then
    ixps' ← _extract_ixp_ases line ixps;
    Ok (cp_links, peer_links, ixps', input_clique)
  else if negb (Py.startswith line "#") then
    if Py.contains line "-1" then
      cp_links' ← _extract_provider_customers line cp_links;
      Ok (cp_links', peer_links, ixps, input_clique)
    else
      peer_links' ← _extract_peers line peer_links;
      Ok (cp_links, peer_links', ixps, input_clique)
  else Ok st.

Fixpoint classify_lines (lines : list string) (st : ases) : result ases :=
  match lines with
  | [] => Ok st
  | line :: rest => st' ← classify_line line st; classify_lines rest st'
  end.

Definition _get_ases (lines : list string) : result ases :=
  classify_lines lines (∅, ∅, ∅, ∅).

(** ** The collector, its files and its collaborators *)

(** [self.dl_time], a [datetime]; only its calendar fields are used. *)
Record datetime : Type := { year : N; month : N; day : N }.

Definition decimal (n : N) : string := NilZero.string_of_uint (N.to_uint n).

(** [%m] and [%d]: two digits, zero padded. *)
Definition two_digits (n : N) : string :=
  if (n <? 10)%N then "0" +:+ decimal n else decimal n.

(** [t.strftime("%Y%m01")] *)
Definition strftime_Ym01 (t : datetime) : string :=
  decimal (year t) +:+ two_digits (month t) +:+ "01".

(** [t.strftime("%Y.%m.%d.txt")] *)
Definition strftime_Y_m_d_txt (t : datetime) : string :=
  decimal (year t) +:+ "." +:+ two_digits (month t) +:+ "." +:+
  two_digits (day t) +:+ ".txt".

(** [dir / name] on [pathlib.Path], for a directory written without a
    trailing slash. *)
Definition path_join (dir name : string) : string := dir +:+ "/" +:+ name.

(** What the process can observe of a run: the files, and the requests
    sent to the remote host, oldest first. *)
Inductive net_event : Type :=
| ListDir (url : string)
| Download (url : string).

Record world : Type := { files : gmap string string; net_log : list net_event }.

(** The world after one more request was logged. *)
Definition logged (ev : net_event) (w : world) : world :=
  {| files := files w; net_log := net_log w ++ [ev] |}.

(** The world with other files. *)
Definition with_files (f : gmap string string) (w : world) : world :=
  {| files := f; net_log := net_log w |}.

Definition is_download (ev : net_event) : bool :=
  match ev with Download _ => true | ListDir _ => false end.

(** Number of payload downloads recorded in a log. *)
Definition fetches (w : world) : nat :=
  length (List.filter is_download (net_log w)).

(** Computations that read and change the world and may raise; the
    changes made before an exception stay. *)
Definition io (A : Type) : Type := world -> result A * world.

#[global] Instance io_ret : MRet io := fun _ a w => (Ok a, w).
#[global] Instance io_bind : MBind io := fun _ _ f m w =>
  match m w with
  | (Ok a, w') => f a w'
  | (Raise e, w') => (Raise e, w')
  end.

Definition lift {A} (r : result A) : io A := fun w => (r, w).

Definition log_request (ev : net_event) : io unit := fun w =>
  (Ok tt, logged ev w).

(** [path.exists()] *)
Definition path_exists (path : string) : io bool := fun w =>
  (Ok (bool_decide (is_Some (files w !! path))), w).

(** [path.open(mode="r")] followed by reading the whole file *)
Definition read_text (path : string) : io string := fun w =>
  match files w !! path with
  | Some content => (Ok content, w)
  | None => (Raise (FileNotFoundError path), w)
  end.

(** [path.open(mode="w")] followed by the writes: the file is created or
    truncated and then holds what was written. Storage faults (a
    directory that is not writable, a full disk: the spec's
    "CacheWriteError") are outside the model, a write here succeeds; a
    statement about a fetch or a run that fails therefore names the step
    that fails, and that step is never the write. *)
Definition write_text (path content : string) : io unit := fun w =>
  (Ok tt, with_files (<[path := content]> (files w)) w).

(** [path.unlink()] when the file is there *)
Definition remove_file (path : string) (w : world) : world :=
  with_files (delete path (files w)) w.

(** How a transfer by [file_funcs.download_file] ends: the payload is in
    the destination file, or the transfer raised and left whatever part
    of the destination file it had written, if any. *)
Inductive download_outcome : Type :=
| Downloaded (payload : string)
| Aborted (partial : option string) (e : exn).

Section Collector.

Context {BGPDAG : Type}.

(** The attributes of [self] that the methods read. [GraphCls] stands
    for the call [self.GraphCls(cp_links, peer_links, ixps=...,
    input_clique=..., BaseASCls=self.BaseASCls)]. *)
Record CaidaCollector : Type := {
  dl_time : datetime;
  cache_dir : string;
  _dir : string;
  tsv_path : string;
  GraphCls : ases -> result BGPDAG
}.

(** The functions of [lib_utils] and [bz2] that the methods call.
    [bz2_readlines payload] stands for
    [[x.decode() for x in bz2.open(path).readlines()]] on a file holding
    [payload]; [tsv_of] for the text that [write_dicts_to_tsv] writes for
    the rows of a graph. *)
Record collaborators : Type := {
  get_hrefs : string -> result (list string);
  download_file : string -> download_outcome;
  bz2_readlines : string -> result (list string);
  tsv_of : BGPDAG -> string
}.

Context (self : CaidaCollector) (lib : collaborators).

(** Modelled from the spec: [file_funcs.temp_path] of [lib_utils], the
    context manager behind [with ... as path]; a "scoped resource",
    "guaranteed removed on every exit path (success, decompression error,
    or download error) before control returns to the caller". *)
Definition temp_path {A} (path_str : string) (body : string -> io A) : io A :=
  fun w => let '(r, w') := body path_str w in (r, remove_file path_str w').

(** [file_funcs.download_file(url, path)] *)
Definition download (url path : string) : io unit := fun w =>
  let w' := logged (Download url) w in
  match download_file lib url with
  | Downloaded payload => (Ok tt, with_files (<[path := payload]> (files w)) w')
  | Aborted (Some partial) e =>
      (Raise e, with_files (<[path := partial]> (files w)) w')
  | Aborted None e => (Raise e, w')
  end.

Definition prepend : string :=
  "http://data.caida.org/datasets/as-relationships/serial-2/".

(** [[prepend + x for x in hrefs if token in x][0]] *)
Definition first_match (token : string) (hrefs : list string) : result string :=
  Py.first_item
    (map (fun x => prepend +:+ x)
         (List.filter (fun x => Py.contains x token) hrefs)).

(** What [_get_url] returns: the URL the listing resolves to, or the
    exception. *)
Definition resolved : result string :=
  hrefs ← get_hrefs lib prepend;
  first_match (strftime_Ym01 (dl_time self)) hrefs.

Definition _get_url : io string :=
  log_request (ListDir prepend);;
  hrefs ← lift (get_hrefs lib prepend);
  lift (first_match (strftime_Ym01 (dl_time self)) hrefs).

Definition download_path : string := path_join (_dir self) "download.bz2".

Definition _write_cache_file (cache_path : string) : io unit :=
  url ← _get_url;
  data ← temp_path download_path (fun path =>
            download url path;;
            payload ← read_text path;
            lift (bz2_readlines lib payload));
  write_text cache_path (String.concat "" data).

Definition cache_path : string :=
  path_join (cache_dir self) (strftime_Y_m_d_txt (dl_time self)).

Definition _read_file (cache : bool) : io (list string) :=
  present ← path_exists cache_path;
  (if negb present || negb cache then _write_cache_file cache_path
   else mret tt);;
  content ← read_text cache_path;
  mret (map Py.strip (Py.readlines content)).

Definition _write_tsv (bgp_dag : BGPDAG) : io unit :=
  write_text (tsv_path self) (tsv_of lib bgp_dag).

Definition run (cache : bool) : io BGPDAG :=
  file_lines ← _read_file cache;
  sets ← lift (_get_ases file_lines);
  bgp_dag ← lift (GraphCls self sets);
  _write_tsv bgp_dag;;
  mret bgp_dag.

End Collector.

Arguments CaidaCollector : clear implicits.
Arguments collaborators : clear implicits.

(** ** Vocabulary of the statements *)

(** A data line (one that is no comment) is malformed when splitting it
    on the pipe does not give four fields, or when one of its two ASN
    fields is no integer literal. *)
Definition malformed_data_line (line : string) : Prop :=
  Py.startswith line "#" = false /\
  (length (Py.split "|" line) <> 4%nat \/
   exists f1 f2 f3 f4, Py.split "|" line = [f1; f2; f3; f4] /\
     (Py.parse_int f1 = None \/ Py.parse_int f2 = None)).

(** The two kinds of parse fault that the spec names, "MalformedCliqueLine"
    for a clique or IXP declaration and "MalformedRelationshipLine" for a
    data line. The code raises [ValueError] for both. *)
Inductive parse_fault : Type :=
| MalformedCliqueLine
| MalformedRelationshipLine.

(** The kind the spec gives to a line that cannot be parsed: among the
    lines that start with "#" only the declarations are parsed. *)
Definition fault_of_line (line : string) : parse_fault :=
  if Py.startswith line "#" then MalformedCliqueLine
  else MalformedRelationshipLine.

(** The kind of the fault that ends a pass: that of the line at which the
    loop of [_get_ases] raises, if it does. *)
Fixpoint fault_from (lines : list string) (st : ases) : option parse_fault :=
  match lines with
  | [] => None
  | line :: rest =>
      match classify_line line st with
      | Ok st' => fault_from rest st'
      | Raise _ => Some (fault_of_line line)
      end
  end.

Definition fault_of_pass (lines : list string) : option parse_fault :=
  fault_from lines (∅, ∅, ∅, ∅).

(** The peer link [p] joins the ASNs [a] and [b], in either order. *)
Definition joins (p : PeerLink) (a b : Z) : Prop :=
  peer_asns p = (a, b) \/ peer_asns p = (b, a).

(** The peer-link set of a classifier state. *)
Definition peers_of (st : ases) : gset PeerLink := st.1.1.2.

(** A peer link is canonical when its ASNs are stored in ascending
    order, as the constructor leaves them. *)
Definition canonical (p : PeerLink) : Prop := (peer_asns p).1 <= (peer_asns p).2.

#[global] Instance joins_dec p a b : Decision (joins p a b).
Proof. unfold joins. apply _. Defined.

(** A collector for September 2021 whose graph builder hands the four
    sets through, and collaborators with a fixed listing, transfer
    outcome and decompressed content. *)
Definition sample_collector : CaidaCollector ases :=
  {| dl_time := {| year := 2021; month := 9; day := 7 |};
     cache_dir := "/tmp/caida_collector_cache";
     _dir := "/tmp/caida";
     tsv_path := "/tmp/caida/caida.tsv";
     GraphCls := Ok |}.

Definition sample_lib (hrefs : list string) (transfer : download_outcome)
    (decompressed : result (list string)) : collaborators ases :=
  {| get_hrefs := fun _ => Ok hrefs;
     download_file := fun _ => transfer;
     bz2_readlines := fun _ => decompressed;
     tsv_of := fun _ => "asn" |}.

Definition empty_world : world := {| files := ∅; net_log := [] |}.

Definition spec_example_lines : list string :=
  ["# input clique"; "# ...: 1 2"; "# IXP ASes"; "# ...: 50";
   "1|3|-1|src"; "3|1|-1|bogus"; "2|4|0|src"].

(** The same declarations in the layout of the published files: the
    ASNs follow the marker on its own line. *)
Definition marker_line_example : list string :=
  ["# input clique: 1 2"; "# IXP ASes: 50";
   "1|3|-1|src"; "3|1|-1|bogus"; "2|4|0|src"].

(** ** Vocabulary of the further properties *)

Definition no_sets : ases := (∅, ∅, ∅, ∅).

(** The union of two results of the classifier, set by set. *)
Definition union4 (r1 r2 : ases) : ases :=
  (r1.1.1.1 ∪ r2.1.1.1, r1.1.1.2 ∪ r2.1.1.2, r1.1.2 ∪ r2.1.2, r1.2 ∪ r2.2).

(** Inclusion of results, set by set. *)
Definition sub4 (r1 r2 : ases) : Prop :=
  r1.1.1.1 ⊆ r2.1.1.1 /\ r1.1.1.2 ⊆ r2.1.1.2 /\ r1.1.2 ⊆ r2.1.2 /\ r1.2 ⊆ r2.2.

(** What a line adds when it is classified on its own. *)
Definition contribution (line : string) : result ases :=
  classify_line line no_sets.

(** The sets a line adds; nothing for a line that raises. *)
Definition contributed (line : string) : ases :=
  match contribution line with
  | Ok d => d
  | Raise _ => no_sets
  end.

(** The union of what the lines add. *)
Definition contributed_by (lines : list string) : ases :=
  foldr (fun line acc => union4 acc (contributed line)) no_sets lines.

(** A comment line that is neither declaration. *)
Definition plain_comment (line : string) : bool :=
  Py.startswith line "#" &&
  negb (Py.startswith line "# input clique") &&
  negb (Py.startswith line "# IXP ASes").

(** [s.count(c)] for a character [c]. *)
Fixpoint count_char (c : ascii) (s : string) : nat :=
  match s with
  | EmptyString => 0%nat
  | String x s' => ((if Ascii.eqb x c then 1 else 0) + count_char c s')%nat
  end.

(** [c not in s] for a character [c]. *)
Definition no_char (c : ascii) (s : string) : bool :=
  Py.all_chars (fun x => negb (Ascii.eqb x c)) s.

Definition is_digit (c : ascii) : bool :=
  match Py.digit_val c with Some _ => true | None => false end.

(** The relationship lines of the published files: two ASNs in
    decimal, the code, and a source tag. *)
Definition transit_line (provider customer : N) (tag : string) : string :=
  decimal provider +:+ "|" +:+ decimal customer +:+ "|-1|" +:+ tag.

Definition peer_line (peer1 peer2 : N) (tag : string) : string :=
  decimal peer1 +:+ "|" +:+ decimal peer2 +:+ "|0|" +:+ tag.

(** A relationship as the published files declare it. *)
Inductive relationship : Type :=
| Transit (provider customer : N) (tag : string)
| Peering (peer1 peer2 : N) (tag : string).

Definition render (r : relationship) : string :=
  match r with
  | Transit a b tag => transit_line a b tag
  | Peering a b tag => peer_line a b tag
  end.

(** A source tag that keeps the line in four fields and, for a peering,
    keeps "-1" out of it. *)
Definition well_tagged (r : relationship) : bool :=
  match r with
  | Transit _ _ tag => no_char "|" tag
  | Peering _ _ tag => no_char "|" tag && negb (Py.contains tag "-1")
  end.

Definition declared_cp_link (r : relationship) : option CPLink :=
  match r with
  | Transit a b _ => Some (new_CPLink (Z.of_N a) (Z.of_N b))
  | Peering _ _ _ => None
  end.

Definition declared_peer_link (r : relationship) : option PeerLink :=
  match r with
  | Transit _ _ _ => None
  | Peering a b _ => Some (new_PeerLink (Z.of_N a) (Z.of_N b))
  end.

(** A text line as [bz2]'s [readlines] hands it over: a text without
    line break, closed by one LF. *)
Definition text_line (l : string) : Prop :=
  exists t, l = t +:+ String "010" "" /\
            no_char "010" t = true /\ no_char "013" t = true.

(** A world that holds the cache file of [sample_collector] and one
    unrelated file. *)
Definition cached_world (content : string) : world :=
  {| files := {[ cache_path sample_collector := content;
                 "/etc/hostname" := "collector" ]};
     net_log := [] |}.

Definition two_text_lines : list string :=
  ["1|2|-1|bgp" +:+ String "010" ""; "2|3|0|bgp" +:+ String "010" ""].

(** [sample_collector] one day later. *)
Definition next_day_collector : CaidaCollector ases :=
  {| dl_time := {| year := 2021; month := 9; day := 8 |};
     cache_dir := "/tmp/caida_collector_cache";
     _dir := "/tmp/caida";
     tsv_path := "/tmp/caida/caida.tsv";
     GraphCls := Ok |}.

(** The fetch fails with [e] before the cache file is opened for
    writing: the URL is not resolved, the transfer raises, or the payload
    is not decompressed (lines 67 to 76 of [_write_cache_file]). *)
Definition fetch_fails {BGPDAG : Type} (self : CaidaCollector BGPDAG)
    (lib : collaborators BGPDAG) (e : exn) : Prop :=
  match resolved self lib with
  | Raise e' => e' = e
  | Ok url =>
      match download_file lib url with
      | Aborted _ e' => e' = e
      | Downloaded payload => bz2_readlines lib payload = Raise e
      end
  end.

(** The run fails with [e] before the writer is called: [_read_file]
    raises, or the classifier or the graph builder does (lines 38 to 44
    of [run]). *)
Definition fails_before_writer {BGPDAG : Type} (self : CaidaCollector BGPDAG)
    (lib : collaborators BGPDAG) (cache : bool) (w : world) (e : exn) : Prop :=
  match (_read_file self lib cache w).1 with
  | Raise e' => e' = e
  | Ok file_lines => _get_ases file_lines ≫= GraphCls self = Raise e
  end.

(** * Properties *)

(** ** Facts about the [str] methods *)

#[local] Arguments String.append !_ _ / : simpl nomatch.

Module PyFacts.
Import Py.

(** The model on the literals that separate the cases of the built-ins. *)

Example int_accepts :
  map parse_int [" 5" +:+ String "009" ""; "1_0"; "+5"; "-0"; "00"; "-12"]
  = [Some 5; Some 10; Some 5; Some 0; Some 0; Some (-12)].
Proof. reflexivity. Qed.

Example int_rejects :
  map parse_int [""; "_1"; "1__0"; "1_"; "0x1"; "- 1"; "+"; "#";
                 String "028" "5"; "1 2"]
  = [None; None; None; None; None; None; None; None; None; None].
Proof. reflexivity. Qed.

Example split_keeps_empty_fields :
  split " " "  a  b " = [""; ""; "a"; ""; "b"; ""] /\ split "|" "" = [""].
Proof. split; reflexivity. Qed.

Example strip_whitespace :
  strip (String "028" " a b " +:+ String "010" "") = "a b".
Proof. reflexivity. Qed.

Example readlines_universal_newlines :
  readlines ("a" +:+ String "013" (String "010" "b") +:+ String "013" "c"
             +:+ String "010" (String "010" "d"))
  = ["a" +:+ String "010" ""; "b" +:+ String "010" "";
     "c" +:+ String "010" ""; String "010" ""; "d"].
Proof. reflexivity. Qed.

Lemma append_nil_r s : s +:+ "" = s.
Proof. induction s as [|c s IH]; simpl; [done | by rewrite IH]. Qed.

Lemma append_assoc s t u : (s +:+ t) +:+ u = s +:+ t +:+ u.
Proof. induction s as [|c s IH]; simpl; [done | by rewrite IH]. Qed.

Lemma startswith_app p s : startswith (p +:+ s) p = true.
Proof.
  induction p as [|c p IH]; simpl; [done |].
  by rewrite Ascii.eqb_refl, IH.
Qed.

Lemma contains_unfold s sub :
  contains s sub =
  startswith s sub ||
  match s with EmptyString => false | String _ s' => contains s' sub end.
Proof. by destruct s. Qed.

Lemma contains_app x sub y : contains (x +:+ sub +:+ y) sub = true.
Proof.
  induction x as [|c x IH].
  - simpl String.append. rewrite contains_unfold.
    by rewrite startswith_app.
  - simpl String.append. rewrite contains_unfold, IH.
    apply orb_true_r.
Qed.

Lemma split_nonempty sep s : split sep s <> [].
Proof.
  destruct s as [|c s]; simpl; [done |].
  destruct (Ascii.eqb c sep); [done |]. by destruct (split sep s).
Qed.

Lemma split_app sep a b :
  split sep (a +:+ String sep b) = split sep a ++ split sep b.
Proof.
  induction a as [|c a IH]; simpl.
  - by rewrite Ascii.eqb_refl.
  - destruct (Ascii.eqb c sep); [by rewrite IH |].
    rewrite IH. pose proof (split_nonempty sep a).
    by destruct (split sep a).
Qed.

Lemma split_no_sep sep s :
  all_chars (fun c => negb (Ascii.eqb c sep)) s = true -> split sep s = [s].
Proof.
  induction s as [|c s IH]; simpl; [done |].
  intros [Hc Hs]%andb_true_iff.
  apply negb_true_iff in Hc. rewrite Hc, IH; done.
Qed.

Lemma join_split sep s : join sep (split sep s) = s.
Proof.
  induction s as [|c s IH]; simpl; [done |].
  pose proof (split_nonempty sep s) as Hne.
  destruct (Ascii.eqb_spec c sep) as [->|Hc].
  - simpl. destruct (split sep s); [done |]. by rewrite IH.
  - destruct (split sep s) as [|w ws]; [done |].
    destruct ws; simpl in *; by rewrite IH.
Qed.

Lemma last_item_split_total sep s : exists t, last_item (split sep s) = Ok t.
Proof.
  unfold last_item. pose proof (split_nonempty sep s) as Hne.
  destruct (last (split sep s)) as [t|] eqn:Hl; [by exists t |].
  by apply last_None in Hl.
Qed.

Lemma last_item_split_app sep a b :
  all_chars (fun c => negb (Ascii.eqb c sep)) b = true ->
  last_item (split sep (a +:+ String sep b)) = Ok b.
Proof.
  intros Hb. unfold last_item.
  by rewrite split_app, (split_no_sep _ _ Hb), last_snoc.
Qed.

Lemma all_chars_app f s t :
  all_chars f (s +:+ t) = all_chars f s && all_chars f t.
Proof.
  induction s as [|c s IH]; simpl; [done |].
  by rewrite IH, andb_assoc.
Qed.

Lemma all_chars_impl (f g : ascii -> bool) s :
  (forall c, f c = true -> g c = true) ->
  all_chars f s = true -> all_chars g s = true.
Proof.
  intros Hfg. induction s as [|c s IH]; simpl; [done |].
  intros [Hc Hs]%andb_true_iff. by rewrite (Hfg _ Hc), IH.
Qed.

Lemma lstrip_spaces sp ws s :
  all_chars sp ws = true -> lstrip_with sp (ws +:+ s) = lstrip_with sp s.
Proof.
  induction ws as [|c ws IH]; simpl; [done |].
  intros [Hc Hs]%andb_true_iff. by rewrite Hc, IH.
Qed.

Lemma rstrip_all_spaces sp ws :
  all_chars sp ws = true -> rstrip_with sp ws = "".
Proof.
  induction ws as [|c ws IH]; simpl; [done |].
  intros [Hc Hs]%andb_true_iff. by rewrite IH, Hc.
Qed.

Lemma rstrip_spaces sp s ws :
  all_chars sp ws = true -> rstrip_with sp (s +:+ ws) = rstrip_with sp s.
Proof.
  intros Hws. induction s as [|c s IH]; simpl.
  - by apply rstrip_all_spaces.
  - by rewrite IH.
Qed.

Lemma lstrip_all_spaces sp ws :
  all_chars sp ws = true -> lstrip_with sp ws = "".
Proof.
  induction ws as [|c ws IH]; simpl; [done |].
  intros [Hc Hs]%andb_true_iff. by rewrite Hc, IH.
Qed.

Lemma strip_with_app_spaces sp s ws :
  all_chars sp ws = true -> strip_with sp (s +:+ ws) = strip_with sp s.
Proof.
  intros Hws. unfold strip_with. induction s as [|c s IH]; simpl.
  - by rewrite (lstrip_all_spaces _ _ Hws).
  - destruct (sp c); [done |].
    by rewrite <- (rstrip_spaces sp (String c s) ws Hws).
Qed.

(** Whitespace around a text does not change what [strip] returns. *)
Lemma strip_with_spaces sp ws1 s ws2 :
  all_chars sp ws1 = true -> all_chars sp ws2 = true ->
  strip_with sp (ws1 +:+ s +:+ ws2) = strip_with sp s.
Proof.
  intros H1 H2. rewrite <- (strip_with_app_spaces sp s ws2 H2).
  unfold strip_with. by rewrite (lstrip_spaces _ _ _ H1).
Qed.

Lemma lstrip_decompose sp s :
  exists ws, all_chars sp ws = true /\ s = ws +:+ lstrip_with sp s.
Proof.
  induction s as [|c s (ws & Hws & IH)]; simpl.
  - by exists "".
  - destruct (sp c) eqn:Hc.
    + exists (String c ws). simpl. rewrite Hc, Hws. split; [done |].
      by rewrite <- IH.
    + by exists "".
Qed.

Lemma rstrip_decompose sp s :
  exists ws, all_chars sp ws = true /\ s = rstrip_with sp s +:+ ws.
Proof.
  induction s as [|c s (ws & Hws & IH)]; simpl.
  - by exists "".
  - destruct (rstrip_with sp s) as [|d r] eqn:Hr.
    + destruct (sp c) eqn:Hc.
      * exists (String c ws). simpl. rewrite Hc, Hws. split; [done |].
        by rewrite IH at 1.
      * exists ws. split; [done |]. simpl. by rewrite IH at 1.
    + exists ws. split; [done |]. simpl. by rewrite IH at 1.
Qed.

(** A text is its stripped part between two runs of whitespace. *)
Lemma strip_decompose sp s :
  exists ws1 ws2, all_chars sp ws1 = true /\ all_chars sp ws2 = true /\
    s = ws1 +:+ strip_with sp s +:+ ws2.
Proof.
  destruct (lstrip_decompose sp s) as (ws1 & H1 & E1).
  destruct (rstrip_decompose sp (lstrip_with sp s)) as (ws2 & H2 & E2).
  exists ws1, ws2. unfold strip_with. by rewrite <- E2, <- E1.
Qed.

(** *** Where the text "-1" can occur *)

Lemma contains_no_dash s : all_chars not_dash s = true -> contains s "-1" = false.
Proof.
  induction s as [|c s IH]; [done |].
  simpl all_chars. intros [Hc Hs]%andb_true_iff.
  rewrite contains_unfold, (IH Hs). simpl.
  unfold not_dash in Hc. apply negb_true_iff in Hc. by rewrite Hc.
Qed.

Lemma contains_app_no_dash x y :
  all_chars not_dash x = true -> contains (x +:+ y) "-1" = contains y "-1".
Proof.
  induction x as [|c x IH]; [done |].
  simpl all_chars. intros [Hc Hs]%andb_true_iff. simpl String.append.
  rewrite contains_unfold, (IH Hs). simpl.
  unfold not_dash in Hc. apply negb_true_iff in Hc. by rewrite Hc.
Qed.

(** "-1" cannot appear across a junction whose right side does not
    start with "1". *)
Lemma contains_app_junction x y :
  contains x "-1" = false -> contains y "-1" = false ->
  startswith y "1" = false -> contains (x +:+ y) "-1" = false.
Proof.
  intros Hx Hy H1. induction x as [|c x IH]; [done |].
  rewrite contains_unfold in Hx. apply orb_false_iff in Hx as [Hc Hx].
  simpl String.append. rewrite contains_unfold, (IH Hx), orb_false_r.
  simpl in *. destruct (Ascii.eqb c "-"); [|done]. simpl in *.
  destruct x as [|d x]; simpl in *; [|done].
  destruct y; simpl in *; done.
Qed.

Lemma c_space_not_dash c : is_c_space c = true -> not_dash c = true.
Proof. destruct c as [[] [] [] [] [] [] [] []]; vm_compute; done. Qed.

Lemma c_space_not_one c : is_c_space c = true -> Ascii.eqb c "1" = false.
Proof. destruct c as [[] [] [] [] [] [] [] []]; vm_compute; done. Qed.

Lemma spaces_not_startswith_one ws :
  all_chars is_c_space ws = true -> startswith ws "1" = false.
Proof.
  destruct ws as [|c ws]; simpl; [done |].
  intros [Hc _]%andb_true_iff. rewrite (c_space_not_one _ Hc).
  by destruct ws.
Qed.

Lemma contains_strip_c_space s :
  contains (strip_with is_c_space s) "-1" = false -> contains s "-1" = false.
Proof.
  intros Ht. destruct (strip_decompose is_c_space s) as (ws1 & ws2 & H1 & H2 & E).
  rewrite E. rewrite contains_app_no_dash
    by (by apply (all_chars_impl is_c_space), H1; apply c_space_not_dash).
  apply contains_app_junction; [done | |].
  - apply contains_no_dash.
    by apply (all_chars_impl is_c_space), H2; apply c_space_not_dash.
  - by apply spaces_not_startswith_one.
Qed.

(** *** Integer literals *)

Lemma digit_val_bounds c d : digit_val c = Some d -> 0 <= d <= 9.
Proof.
  unfold digit_val.
  destruct (_ && _)%N eqn:Hc; [|done]. intros [= <-].
  apply andb_true_iff in Hc as [?%N.leb_le ?%N.leb_le]. lia.
Qed.

Lemma parse_digits_ge acc d s v :
  0 <= acc -> parse_digits acc d s = Some v -> acc <= v.
Proof.
  revert acc d. induction s as [|c s IH]; intros acc d Hacc; simpl.
  - destruct d; [|done]. intros [= <-]. lia.
  - destruct (digit_val c) as [dv|] eqn:Hc.
    + intros Hp. pose proof (digit_val_bounds _ _ Hc).
      apply IH in Hp; lia.
    + destruct (_ && _); [|done]. by apply IH.
Qed.

Lemma digit_not_dash c d : digit_val c = Some d -> not_dash c = true.
Proof. destruct c as [[] [] [] [] [] [] [] []]; vm_compute; done. Qed.

Lemma parse_digits_no_dash acc d s v :
  parse_digits acc d s = Some v -> all_chars not_dash s = true.
Proof.
  revert acc d. induction s as [|c s IH]; intros acc d; simpl; [done |].
  destruct (digit_val c) as [dv|] eqn:Hc.
  - intros Hp. by rewrite (digit_not_dash _ _ Hc), (IH _ _ Hp).
  - destruct (Ascii.eqb_spec c "_") as [->|]; simpl; [|done].
    destruct d; [|done]. by intros ->%IH.
Qed.

(** The literal of a non-negative integer does not contain "-1". *)
Lemma nonneg_literal_no_transit s n :
  parse_int s = Some n -> 0 <= n -> contains s "-1" = false.
Proof.
  unfold parse_int. intros Hp Hn. apply contains_strip_c_space.
  destruct (strip_with is_c_space s) as [|c ds]; [done |].
  destruct (Ascii.eqb_spec c "-") as [->|Hm].
  - destruct (parse_digits 0 false ds) as [v|] eqn:Hd; [|done].
    injection Hp as <-. rewrite contains_unfold.
    rewrite (contains_no_dash ds) by by eapply parse_digits_no_dash.
    rewrite orb_false_r. simpl.
    destruct ds as [|c ds]; [done |]. simpl.
    destruct (Ascii.eqb_spec c "1") as [->|]; [|done].
    simpl in Hd. apply parse_digits_ge in Hd; lia.
  - destruct (Ascii.eqb_spec c "+") as [->|Hpl].
    + rewrite contains_unfold.
      by rewrite (contains_no_dash ds) by by eapply parse_digits_no_dash.
    + apply contains_no_dash. by eapply parse_digits_no_dash.
Qed.

End PyFacts.

(** ** Facts about the classifier *)

Section ClassifierFacts.
Import Py PyFacts.

Ltac unfold_bind := unfold mbind, result_bind, mret, result_ret in *.

Lemma int_raises s e : int s = Raise e -> is_ValueError e = true.
Proof. unfold int. destruct (parse_int s); by intros [= <-]. Qed.

Lemma unpack4_raises {A} (l : list A) e :
  unpack4 l = Raise e -> is_ValueError e = true.
Proof.
  unfold unpack4.
  destruct l as [|a [|b [|c [|d [|x l]]]]]; simpl; by intros [= <-].
Qed.

Lemma unpack4_wrong_length {A} (l : list A) :
  length l <> 4%nat -> raises (unpack4 l).
Proof.
  unfold unpack4, raises.
  destruct l as [|a [|b [|c [|d [|x l]]]]]; simpl; intros Hl; try done;
    eauto.
Qed.

Lemma add_asns_raises tokens s e :
  add_asns tokens s = Raise e -> is_ValueError e = true.
Proof.
  revert s. induction tokens as [|t ts IH]; intros s; simpl; [done |].
  unfold_bind. destruct (int t) eqn:Ht; [apply IH |].
  intros [= <-]. by eapply int_raises.
Qed.

Lemma extract_input_clique_raises line s e :
  _extract_input_clique line s = Raise e -> is_ValueError e = true.
Proof.
  unfold _extract_input_clique. unfold_bind.
  destruct (last_item_split_total ":" line) as [t ->].
  apply add_asns_raises.
Qed.

Lemma extract_ixp_ases_raises line s e :
  _extract_ixp_ases line s = Raise e -> is_ValueError e = true.
Proof.
  unfold _extract_ixp_ases. unfold_bind.
  destruct (last_item_split_total ":" line) as [t ->].
  apply add_asns_raises.
Qed.

Lemma extract_provider_customers_raises line s e :
  _extract_provider_customers line s = Raise e -> is_ValueError e = true.
Proof.
  unfold _extract_provider_customers. unfold_bind.
  destruct (unpack4 _) as [[[[f1 f2] f3] f4]|e'] eqn:Hu.
  - destruct (int f2) eqn:H2; [|intros [= <-]; by eapply int_raises].
    destruct (int f1) eqn:H1; [done |intros [= <-]; by eapply int_raises].
  - intros [= <-]. by eapply unpack4_raises.
Qed.

Lemma extract_peers_raises line s e :
  _extract_peers line s = Raise e -> is_ValueError e = true.
Proof.
  unfold _extract_peers. unfold_bind.
  destruct (unpack4 _) as [[[[f1 f2] f3] f4]|e'] eqn:Hu.
  - destruct (int f1) eqn:H1; [|intros [= <-]; by eapply int_raises].
    destruct (int f2) eqn:H2; [done |intros [= <-]; by eapply int_raises].
  - intros [= <-]. by eapply unpack4_raises.
Qed.

(** The classifier raises nothing but [ValueError]. *)
Lemma classify_line_raises line st e :
  classify_line line st = Raise e -> is_ValueError e = true.
Proof.
  unfold classify_line. destruct st as [[[cp pl] ix] ic]. unfold_bind.
  destruct (startswith line "# input clique").
  { destruct (_extract_input_clique _ _) eqn:H; [done |].
    intros [= <-]. by eapply extract_input_clique_raises. }
  destruct (startswith line "# IXP ASes").
  { destruct (_extract_ixp_ases _ _) eqn:H; [done |].
    intros [= <-]. by eapply extract_ixp_ases_raises. }
  destruct (startswith line "#"); simpl; [done |].
  destruct (contains line "-1").
  - destruct (_extract_provider_customers _ _) eqn:H; [done |].
    intros [= <-]. by eapply extract_provider_customers_raises.
  - destruct (_extract_peers _ _) eqn:H; [done |].
    intros [= <-]. by eapply extract_peers_raises.
Qed.

Lemma classify_lines_raises lines st e :
  classify_lines lines st = Raise e -> is_ValueError e = true.
Proof.
  revert st. induction lines as [|l ls IH]; intros st; simpl; [done |].
  unfold_bind. destruct (classify_line l st) eqn:Hl; [apply IH |].
  intros [= <-]. by eapply classify_line_raises.
Qed.

(** A line that cannot be classified aborts the pass wherever it stands. *)
Lemma classify_lines_bad_line lines line :
  line ∈ lines ->
  (forall st, raises (classify_line line st)) ->
  forall st, raises_ValueError (classify_lines lines st).
Proof.
  intros Hin Hbad.
  assert (forall st, raises (classify_lines lines st)) as Hr.
  { induction Hin as [l ls|l l' ls Hin IH]; intros st; simpl; unfold_bind.
    - destruct (Hbad st) as [e ->]. by exists e.
    - destruct (classify_line l' st); [by apply IH | by eexists]. }
  intros st. destruct (Hr st) as [e He]. exists e. split; [done |].
  by eapply classify_lines_raises.
Qed.

Lemma startswith_hash line p :
  startswith line "#" = false -> startswith line (String "#" p) = false.
Proof.
  destruct line as [|c line]; simpl; [done |].
  destruct (Ascii.eqb c "#"); simpl; [by destruct line | done].
Qed.

(** What the loop body does with a line that is no comment. *)
Lemma classify_data_line line cp pl ix ic :
  startswith line "#" = false ->
  classify_line line (cp, pl, ix, ic) =
  if contains line "-1" then
    cp' ← _extract_provider_customers line cp; Ok (cp', pl, ix, ic)
  else
    pl' ← _extract_peers line pl; Ok (cp, pl', ix, ic).
Proof.
  intros Hd. unfold classify_line.
  by rewrite !(startswith_hash _ _ Hd).
Qed.

Lemma int_Ok s n : parse_int s = Some n -> int s = Ok n.
Proof. unfold int. by intros ->. Qed.

Lemma int_None s : parse_int s = None -> int s = Raise (ValueError_int s).
Proof. unfold int. by intros ->. Qed.

Lemma contains_transit_field line f1 f2 f4 :
  split "|" line = [f1; f2; "-1"; f4] -> contains line "-1" = true.
Proof.
  intros Hs.
  assert (line = (f1 +:+ String "|" (f2 +:+ "|")) +:+ "-1" +:+ String "|" f4)
    as ->.
  { rewrite <- (join_split "|" line), Hs. simpl.
    rewrite !append_assoc. simpl. by rewrite !append_assoc. }
  apply contains_app.
Qed.

Lemma malformed_data_line_raises line st :
  malformed_data_line line -> raises (classify_line line st).
Proof.
  intros [Hd Hbad]. destruct st as [[[cp pl] ix] ic].
  rewrite (classify_data_line _ _ _ _ _ Hd).
  unfold _extract_provider_customers, _extract_peers, raises.
  destruct Hbad as [Hlen|(f1 & f2 & f3 & f4 & Hs & Hint)].
  - destruct (unpack4_wrong_length _ Hlen) as [e ->].
    destruct (contains line "-1"); by exists e.
  - rewrite Hs. simpl. unfold_bind.
    destruct (contains line "-1"), Hint as [H1|H2];
      rewrite ?(int_None _ H1), ?(int_None _ H2);
      try destruct (int f1); try destruct (int f2); eauto.
Qed.

Lemma classify_lines_app l1 l2 st :
  classify_lines (l1 ++ l2) st = st1 ← classify_lines l1 st; classify_lines l2 st1.
Proof.
  revert st. induction l1 as [|l ls IH]; intros st; simpl; [done |].
  unfold_bind. destruct (classify_line l st); [apply IH | done].
Qed.

Lemma fault_from_app pre rest st st' :
  classify_lines pre st = Ok st' ->
  fault_from (pre ++ rest) st = fault_from rest st'.
Proof.
  revert st. induction pre as [|l ls IH]; intros st; simpl.
  - by intros [= ->].
  - unfold_bind. destruct (classify_line l st); [apply IH | done].
Qed.

(** The exception of a malformed data line does not depend on what was
    collected before it. *)
Lemma malformed_data_line_exn line :
  malformed_data_line line ->
  exists e, is_ValueError e = true /\
            forall st, classify_line line st = Raise e.
Proof.
  intros [Hd Hbad].
  assert (forall e,
    (if contains line "-1"
     then unpack4 (split "|" line) ≫=
            (fun '(provider_asn, customer_asn, _, _) =>
               c ← int customer_asn; p ← int provider_asn; Ok (p, c))
     else unpack4 (split "|" line) ≫=
            (fun '(peer1_asn, peer2_asn, _, _) =>
               p1 ← int peer1_asn; p2 ← int peer2_asn; Ok (p1, p2)))
    = Raise e ->
    forall st, classify_line line st = Raise e) as Hshape.
  { intros e He [[[cp pl] ix] ic]. rewrite (classify_data_line _ _ _ _ _ Hd).
    unfold _extract_provider_customers, _extract_peers. unfold_bind.
    destruct (contains line "-1");
      destruct (unpack4 _) as [[[[f1 f2] f3] f4]|e'];
      try (by inversion He).
    - destruct (int f2); [|by inversion He].
      destruct (int f1); by inversion He.
    - destruct (int f1); [|by inversion He].
      destruct (int f2); by inversion He. }
  assert (exists e, is_ValueError e = true /\
    (if contains line "-1"
     then unpack4 (split "|" line) ≫=
            (fun '(provider_asn, customer_asn, _, _) =>
               c ← int customer_asn; p ← int provider_asn; Ok (p, c))
     else unpack4 (split "|" line) ≫=
            (fun '(peer1_asn, peer2_asn, _, _) =>
               p1 ← int peer1_asn; p2 ← int peer2_asn; Ok (p1, p2)))
    = Raise e) as (e & Hv & He).
  { unfold_bind.
    destruct Hbad as [Hlen|(f1 & f2 & f3 & f4 & Hs & Hint)].
    - destruct (unpack4_wrong_length _ Hlen) as [e He]. rewrite He.
      exists e. split; [exact (unpack4_raises _ _ He) |].
      by destruct (contains line "-1").
    - rewrite Hs. cbn [unpack4]. unfold int.
      destruct (contains line "-1"), Hint as [H|H]; rewrite H;
        try destruct (parse_int f1); try destruct (parse_int f2);
        first [by exists (ValueError_int f1) | by exists (ValueError_int f2)]. }
  exists e. split; [done | by apply Hshape].
Qed.

End ClassifierFacts.

(** ** The classifier: routing of data lines *)

(** C1, at the input on which the code departs from it: the line
    ["1|2|0|src-1"] has the peer code "0" in its relationship field, yet
    it is stored as a customer-provider link and the peer set stays
    empty, because the transit test looks for "-1" in the whole line and
    finds it in the source tag. *)
Theorem transit_test_reads_whole_line :
  Py.split "|" "1|2|0|src-1" = ["1"; "2"; "0"; "src-1"] /\
  _get_ases ["1|2|0|src-1"] = Ok ({[new_CPLink 1 2]}, ∅, ∅, ∅).
Proof. split; vm_compute; reflexivity. Qed.

(** C3, counterexample: the seven lines of the example do not classify.
    The first line starts with the clique marker and has no colon, so its
    whole text is tokenised and [int("#")] raises. *)
Lemma spec_example_raises :
  _get_ases spec_example_lines = Raise (ValueError_int "#").
Proof. vm_compute. reflexivity. Qed.

(** C3, amended: the seven lines raise [ValueError] at the first one and
    return no sets; with each declaration on its marker line the pass
    completes with clique {1,2}, IXPs {50}, the peer link {2,4}, and both
    directed links (1,3) and (3,1): the contradictory declaration is kept
    as a second edge. *)
Theorem marker_line_example_classified :
  raises_ValueError (_get_ases spec_example_lines) /\
  _get_ases marker_line_example =
    Ok ({[new_CPLink 1 3; new_CPLink 3 1]}, {[new_PeerLink 2 4]},
        {[50]}, {[1; 2]}) /\
  new_CPLink 1 3 <> new_CPLink 3 1.
Proof.
  split; [|split].
  - exists (ValueError_int "#"). split; vm_compute; reflexivity.
  - vm_compute. reflexivity.
  - discriminate.
Qed.

(** C5, counterexample: the input holds the malformed data line "3|4|0",
    and the pass fails at the clique declaration before it: the exception
    is that of [int("x")] in the declaration, the fault the spec calls
    "MalformedCliqueLine", and not that of the data line. Both are the
    same Python exception type. *)
Lemma malformed_line_behind_bad_declaration :
  malformed_data_line "3|4|0" /\
  _get_ases ["# input clique: x"; "3|4|0"] = Raise (ValueError_int "x") /\
  classify_line "3|4|0" (∅, ∅, ∅, ∅) = Raise (ValueError_unpack_not_enough 4 3) /\
  fault_of_pass ["# input clique: x"; "3|4|0"] = Some MalformedCliqueLine /\
  fault_of_pass ["# input clique: x"; "3|4|0"] <> Some MalformedRelationshipLine.
Proof.
  split; [split; [reflexivity | left; vm_compute; lia] |].
  repeat split; try (vm_compute; reflexivity).
  intros Heq. vm_compute in Heq. discriminate Heq.
Qed.

(** C5, amended: a malformed data line anywhere in the input makes the
    whole pass raise [ValueError], the one exception of the classifier
    (tuple unpacking and [int()]), and the pass then returns no sets at
    all. The exception of the line is the same whatever was collected
    before; when the lines before it classify, it is the exception of
    the pass, and the fault is the one the spec calls
    "MalformedRelationshipLine". *)
Theorem malformed_data_line_aborts_pass (lines : list string) (line : string) :
  line ∈ lines ->
  malformed_data_line line ->
  raises_ValueError (_get_ases lines) /\
  (forall sets, _get_ases lines <> Ok sets) /\
  exists e, is_ValueError e = true /\
    (forall st, classify_line line st = Raise e) /\
    forall pre post sets,
      lines = pre ++ line :: post -> _get_ases pre = Ok sets ->
      _get_ases lines = Raise e /\
      fault_of_pass lines = Some MalformedRelationshipLine.
Proof.
  intros Hin Hbad.
  assert (raises_ValueError (_get_ases lines)) as Hr.
  { apply (classify_lines_bad_line lines line Hin).
    intros st. by apply malformed_data_line_raises. }
  split; [done |]. split.
  { intros sets Hok. destruct Hr as (e & He & _). congruence. }
  destruct (malformed_data_line_exn line Hbad) as (e & Hv & He).
  exists e. split; [done |]. split; [done |].
  intros pre post sets -> Hpre. split.
  - unfold _get_ases in *. rewrite classify_lines_app, Hpre.
    unfold mbind, result_bind. cbn [classify_lines]. by rewrite He.
  - unfold fault_of_pass, _get_ases in *.
    rewrite (fault_from_app pre (line :: post) _ sets Hpre).
    cbn [fault_from]. rewrite He. unfold fault_of_line.
    by destruct Hbad as [-> _].
Qed.

Lemma malformed_data_line_aborts_pass_witness :
  raises_ValueError (_get_ases ["1|2|-1|bgp"; "3|4|0"; "5|6|0|bgp"]) /\
  raises_ValueError (_get_ases ["1|2|-1|bgp"; "3|x|0|bgp"]).
Proof.
  split.
  - apply (malformed_data_line_aborts_pass _ "3|4|0").
    + set_solver.
    + split; [reflexivity | left; vm_compute; lia].
  - apply (malformed_data_line_aborts_pass _ "3|x|0|bgp").
    + set_solver.
    + split; [reflexivity |]. right.
      exists "3", "x", "0", "bgp". split; [reflexivity | by right].
Defined.

(** ** The classifier: clique and IXP declarations *)

Lemma isspace_not_colon c : Py.isspace c = true -> negb (Ascii.eqb c ":") = true.
Proof. destruct c as [[] [] [] [] [] [] [] []]; vm_compute; done. Qed.

(** C4, counterexample: with two spaces between the first two tokens the
    split on the single space yields an empty token, and [int("")]
    raises. *)
Lemma clique_double_space_raises :
  Py.strip (" 100  200 300") = "100  200 300" /\
  _get_ases ["# input clique: 100  200 300"] = Raise (ValueError_int "").
Proof. split; vm_compute; reflexivity. Qed.

(** C4, amended: when the text after the final colon of a clique-marker
    line is 100, 200 and 300 separated by exactly one space each, with any
    whitespace before and after, the pass succeeds and the input clique is
    {100, 200, 300}. *)
Theorem clique_single_spaces (pre ws1 ws2 : string) :
  Py.all_chars Py.isspace ws1 = true ->
  Py.all_chars Py.isspace ws2 = true ->
  _get_ases ["# input clique" +:+ pre +:+ ":" +:+ ws1 +:+ "100 200 300" +:+ ws2]
  = Ok (∅, ∅, ∅, {[100; 200; 300]}).
Proof.
  intros H1 H2. unfold _get_ases, classify_lines, classify_line.
  rewrite PyFacts.startswith_app. unfold _extract_input_clique.
  set (tail := ws1 +:+ "100 200 300" +:+ ws2).
  replace ("# input clique" +:+ pre +:+ ":" +:+ tail)
    with (("# input clique" +:+ pre) +:+ String ":" tail)
    by (by rewrite PyFacts.append_assoc).
  rewrite PyFacts.last_item_split_app.
  - unfold tail, Py.strip, mbind, result_bind.
    rewrite (PyFacts.strip_with_spaces _ _ _ _ H1 H2).
    vm_compute. reflexivity.
  - unfold tail. rewrite !PyFacts.all_chars_app.
    rewrite (PyFacts.all_chars_impl _ _ ws1 isspace_not_colon H1).
    rewrite (PyFacts.all_chars_impl _ _ ws2 isspace_not_colon H2).
    reflexivity.
Qed.

Lemma clique_single_spaces_witness :
  _get_ases ["# input clique" +:+ " (17 ASes): x" +:+ ":" +:+
              String "009" " " +:+ "100 200 300" +:+ "  "]
  = Ok (∅, ∅, ∅, {[100; 200; 300]}).
Proof. apply (clique_single_spaces " (17 ASes): x"); reflexivity. Defined.

(** ** The classifier: direction of customer-provider links *)

(** C7: a data line whose fields are [f1|f2|-1|f4] adds the link with
    provider [int(f1)] and customer [int(f2)]; the line with the two ASN
    fields swapped adds the mirrored link, with provider [int(f2)] and
    customer [int(f1)], and the two links are the same entity only when
    the two ASNs are equal: the order is kept as declared. *)
Theorem cp_link_order_as_declared
    (line line' f1 f2 f4 : string) (a b : Z)
    (cp : gset CPLink) (pl : gset PeerLink) (ix ic : gset Z) :
  Py.startswith line "#" = false ->
  Py.split "|" line = [f1; f2; "-1"; f4] ->
  Py.startswith line' "#" = false ->
  Py.split "|" line' = [f2; f1; "-1"; f4] ->
  Py.parse_int f1 = Some a ->
  Py.parse_int f2 = Some b ->
  classify_line line (cp, pl, ix, ic)
    = Ok ({[ {| provider_asn := a; customer_asn := b |} ]} ∪ cp, pl, ix, ic) /\
  classify_line line' (cp, pl, ix, ic)
    = Ok ({[ {| provider_asn := b; customer_asn := a |} ]} ∪ cp, pl, ix, ic) /\
  _get_ases [line] = Ok ({[new_CPLink a b]}, ∅, ∅, ∅) /\
  _get_ases [line'] = Ok ({[new_CPLink b a]}, ∅, ∅, ∅) /\
  (_get_ases [line'] = _get_ases [line] <-> a = b).
Proof.
  intros Hd Hs Hd' Hs' Ha Hb.
  assert (forall cp0 pl0 ix0 ic0, classify_line line (cp0, pl0, ix0, ic0)
    = Ok ({[new_CPLink a b]} ∪ cp0, pl0, ix0, ic0)) as H1.
  { intros. rewrite (classify_data_line _ _ _ _ _ Hd).
    rewrite (contains_transit_field _ _ _ _ Hs).
    unfold _extract_provider_customers. rewrite Hs.
    unfold unpack4, mbind, result_bind.
    by rewrite (int_Ok _ _ Ha), (int_Ok _ _ Hb). }
  assert (forall cp0 pl0 ix0 ic0, classify_line line' (cp0, pl0, ix0, ic0)
    = Ok ({[new_CPLink b a]} ∪ cp0, pl0, ix0, ic0)) as H2.
  { intros. rewrite (classify_data_line _ _ _ _ _ Hd').
    rewrite (contains_transit_field _ _ _ _ Hs').
    unfold _extract_provider_customers. rewrite Hs'.
    unfold unpack4, mbind, result_bind.
    by rewrite (int_Ok _ _ Ha), (int_Ok _ _ Hb). }
  assert (_get_ases [line] = Ok ({[new_CPLink a b]}, ∅, ∅, ∅)) as G1.
  { unfold _get_ases, classify_lines. rewrite H1.
    unfold mbind, result_bind. by rewrite (right_id_L ∅ (∪)). }
  assert (_get_ases [line'] = Ok ({[new_CPLink b a]}, ∅, ∅, ∅)) as G2.
  { unfold _get_ases, classify_lines. rewrite H2.
    unfold mbind, result_bind. by rewrite (right_id_L ∅ (∪)). }
  repeat split; try done.
  - rewrite G1, G2. intros Heq.
    assert (({[new_CPLink b a]} : gset CPLink) = {[new_CPLink a b]}) as Hs1
      by congruence.
    assert (new_CPLink b a ∈ ({[new_CPLink a b]} : gset CPLink)) as Hin
      by (rewrite <- Hs1; set_solver).
    apply elem_of_singleton in Hin. congruence.
  - intros ->. by rewrite G1, G2.
Qed.

Lemma cp_link_order_as_declared_witness :
  _get_ases ["1|3|-1|src"] = Ok ({[new_CPLink 1 3]}, ∅, ∅, ∅) /\
  _get_ases ["3|1|-1|src"] = Ok ({[new_CPLink 3 1]}, ∅, ∅, ∅) /\
  _get_ases ["3|1|-1|src"] <> _get_ases ["1|3|-1|src"].
Proof.
  destruct (cp_link_order_as_declared "1|3|-1|src" "3|1|-1|src"
              "1" "3" "src" 1 3 ∅ ∅ ∅ ∅)
    as (_ & _ & G1 & G2 & Hiff); try reflexivity.
  split; [exact G1 | split; [exact G2 |]].
  intros Heq. apply Hiff in Heq. discriminate.
Defined.

(** ** The classifier: peer links *)

Section PeerFacts.
Import Py PyFacts.

Ltac unfold_bind := unfold mbind, result_bind, mret, result_ret in *.

Lemma new_PeerLink_comm a b : new_PeerLink a b = new_PeerLink b a.
Proof. unfold new_PeerLink. do 2 f_equal; lia. Qed.

Lemma new_PeerLink_canonical a b : canonical (new_PeerLink a b).
Proof. unfold canonical, new_PeerLink. simpl. lia. Qed.

Lemma canonical_joins p a b : canonical p -> joins p a b -> p = new_PeerLink a b.
Proof.
  destruct p as [[x y]]. unfold canonical, joins, new_PeerLink. simpl.
  intros Hxy [[= -> ->]|[= -> ->]]; do 2 f_equal; lia.
Qed.

Lemma new_PeerLink_joins a b : joins (new_PeerLink a b) a b.
Proof.
  unfold joins, new_PeerLink. simpl.
  destruct (Z.le_gt_cases a b); [left | right]; f_equal; lia.
Qed.

Lemma peer_line_no_transit line fa fb tag a b :
  split "|" line = [fa; fb; "0"; tag] ->
  parse_int fa = Some a -> parse_int fb = Some b -> 0 <= a -> 0 <= b ->
  contains tag "-1" = false ->
  contains line "-1" = false.
Proof.
  intros Hs Ha Hb Hna Hnb Htag.
  assert (line = fa +:+ String "|" (fb +:+ String "|" (String "0" (String "|" tag))))
    as ->.
  { by rewrite <- (join_split "|" line), Hs. }
  apply contains_app_junction; [by eapply nonneg_literal_no_transit | | done].
  rewrite contains_unfold. change (startswith _ "-1") with false.
  rewrite orb_false_l.
  apply contains_app_junction; [by eapply nonneg_literal_no_transit | | done].
  exact Htag.
Qed.

Lemma classify_peer_line line f1 f2 f3 f4 a b cp pl ix ic :
  startswith line "#" = false -> contains line "-1" = false ->
  split "|" line = [f1; f2; f3; f4] ->
  parse_int f1 = Some a -> parse_int f2 = Some b ->
  classify_line line (cp, pl, ix, ic)
  = Ok (cp, {[new_PeerLink a b]} ∪ pl, ix, ic).
Proof.
  intros Hd Hc Hs Ha Hb. rewrite (classify_data_line _ _ _ _ _ Hd), Hc.
  unfold _extract_peers. rewrite Hs. unfold unpack4. unfold_bind.
  by rewrite (int_Ok _ _ Ha), (int_Ok _ _ Hb).
Qed.

Lemma extract_peers_adds line pl pl' :
  _extract_peers line pl = Ok pl' ->
  exists x y, pl' = {[new_PeerLink x y]} ∪ pl.
Proof.
  unfold _extract_peers. unfold_bind.
  destruct (unpack4 _) as [[[[f1 f2] f3] f4]|]; [|done].
  destruct (int f1) as [x|]; [|done]. destruct (int f2) as [y|]; [|done].
  intros [= <-]. by exists x, y.
Qed.

(** One line leaves the peer set as it is or adds one canonical link. *)
Lemma classify_line_peers line st st' :
  classify_line line st = Ok st' ->
  peers_of st' = peers_of st \/
  exists x y, peers_of st' = {[new_PeerLink x y]} ∪ peers_of st.
Proof.
  unfold classify_line. destruct st as [[[cp pl] ix] ic]. unfold_bind.
  unfold peers_of.
  destruct (startswith line "# input clique").
  { destruct (_extract_input_clique _ _); [|done]. intros [= <-]. by left. }
  destruct (startswith line "# IXP ASes").
  { destruct (_extract_ixp_ases _ _); [|done]. intros [= <-]. by left. }
  destruct (negb _); [|intros [= <-]; by left].
  destruct (contains line "-1").
  - destruct (_extract_provider_customers _ _); [|done].
    intros [= <-]. by left.
  - destruct (_extract_peers _ _) as [pl'|] eqn:Hp; [|done].
    intros [= <-]. right. by apply extract_peers_adds in Hp.
Qed.

Lemma classify_lines_peers lines st st' :
  classify_lines lines st = Ok st' ->
  peers_of st ⊆ peers_of st' /\
  ((forall p, p ∈ peers_of st -> canonical p) ->
   forall p, p ∈ peers_of st' -> canonical p).
Proof.
  revert st. induction lines as [|l ls IH]; intros st; simpl.
  - by intros [= <-].
  - unfold_bind. destruct (classify_line l st) as [st1|] eqn:Hl; [|done].
    intros [Hsub Hcan]%IH.
    apply classify_line_peers in Hl as [Heq|(x & y & Heq)].
    + rewrite Heq in Hsub, Hcan. done.
    + rewrite Heq in Hsub, Hcan. split.
      { intros p Hp. apply Hsub, elem_of_union. by right. }
      intros Hst. apply Hcan. intros p [->%elem_of_singleton|Hp]%elem_of_union.
      * apply new_PeerLink_canonical.
      * by apply Hst.
Qed.

Lemma classify_lines_keeps_peer lines line x :
  line ∈ lines ->
  (forall st, exists st1,
     classify_line line st = Ok st1 /\ x ∈ peers_of st1) ->
  forall st st', classify_lines lines st = Ok st' -> x ∈ peers_of st'.
Proof.
  intros Hin Hline.
  induction Hin as [l ls|l l' ls Hin IH]; intros st st'; simpl; unfold_bind.
  - destruct (Hline st) as (st1 & -> & Hx).
    intros [Hsub _]%classify_lines_peers. by apply Hsub.
  - destruct (classify_line l' st); [|done]. by apply IH.
Qed.

End PeerFacts.

(** C8: when an input holds the peer lines [A|B|0|tag] and [B|A|0|tag'],
    for non-negative ASNs and any two source tags without "-1", the peer
    set it yields has the link of A and B, stored once: every link of
    the set that joins A and B is that one entity, whichever order the
    pair was written in. The two lines alone classify to the one-element
    peer set. *)
Theorem peer_link_is_unordered
    (lines : list string) (l1 l2 fa fb tag tag' : string) (a b : Z) :
  l1 ∈ lines -> l2 ∈ lines ->
  Py.startswith l1 "#" = false -> Py.startswith l2 "#" = false ->
  Py.split "|" l1 = [fa; fb; "0"; tag] ->
  Py.split "|" l2 = [fb; fa; "0"; tag'] ->
  Py.parse_int fa = Some a -> Py.parse_int fb = Some b ->
  0 <= a -> 0 <= b ->
  Py.contains tag "-1" = false -> Py.contains tag' "-1" = false ->
  new_PeerLink a b = new_PeerLink b a /\
  _get_ases [l1; l2] = Ok (∅, {[new_PeerLink a b]}, ∅, ∅) /\
  forall cp peers ixps clique,
    _get_ases lines = Ok (cp, peers, ixps, clique) ->
    new_PeerLink a b ∈ peers /\
    (forall p, p ∈ peers -> joins p a b -> p = new_PeerLink a b) /\
    size (filter (fun p => joins p a b) peers) = 1%nat.
Proof.
  intros Hin1 Hin2 Hd1 Hd2 Hs1 Hs2 Ha Hb Hna Hnb Ht Ht'.
  pose proof (peer_line_no_transit _ _ _ _ _ _ Hs1 Ha Hb Hna Hnb Ht) as Hc1.
  pose proof (peer_line_no_transit _ _ _ _ _ _ Hs2 Hb Ha Hnb Hna Ht') as Hc2.
  split; [apply new_PeerLink_comm |]. split.
  - unfold _get_ases, classify_lines.
    rewrite (classify_peer_line _ _ _ _ _ _ _ _ _ _ _ Hd1 Hc1 Hs1 Ha Hb).
    unfold mbind at 1. unfold result_bind at 1.
    rewrite (classify_peer_line _ _ _ _ _ _ _ _ _ _ _ Hd2 Hc2 Hs2 Hb Ha).
    unfold mbind, result_bind. rewrite (new_PeerLink_comm b a).
    by rewrite (right_id_L ∅ (∪)), (idemp_L (∪)).
  - intros cp peers ixps clique Hok.
    assert (new_PeerLink a b ∈ peers) as Hmem.
    { change peers with (peers_of (cp, peers, ixps, clique)).
      apply (classify_lines_keeps_peer lines l1 _ Hin1) with (st := (∅, ∅, ∅, ∅));
        [|exact Hok].
      intros [[[cp0 pl0] ix0] ic0]. eexists. split.
      - apply (classify_peer_line _ _ _ _ _ _ _ _ _ _ _ Hd1 Hc1 Hs1 Ha Hb).
      - unfold peers_of. simpl. set_solver. }
    assert (forall p, p ∈ peers -> joins p a b -> p = new_PeerLink a b) as Huniq.
    { intros p Hp Hj. apply canonical_joins; [|done].
      apply classify_lines_peers in Hok as [_ Hcan].
      apply (Hcan ltac:(set_solver) p Hp). }
    split; [done |]. split; [done |].
    assert (filter (fun p => joins p a b) peers = {[new_PeerLink a b]}) as ->.
    { apply set_eq. intros p. rewrite elem_of_filter, elem_of_singleton.
      split; [intros [Hj Hp]; by apply Huniq |].
      intros ->. split; [apply new_PeerLink_joins | done]. }
    apply size_singleton.
Qed.

Lemma peer_link_is_unordered_witness :
  _get_ases ["174|1299|0|bgp"; "1299|174|0|mlp"]
  = Ok (∅, {[new_PeerLink 174 1299]}, ∅, ∅).
Proof.
  apply (peer_link_is_unordered
           ["174|1299|0|bgp"; "1299|174|0|mlp"]
           "174|1299|0|bgp" "1299|174|0|mlp" "174" "1299" "bgp" "mlp" 174 1299);
    try reflexivity; try lia; set_solver.
Defined.

(** ** The cache-aware fetch *)

Section CollectorFacts.
Import Py PyFacts.
Context {BGPDAG : Type} (self : CaidaCollector BGPDAG) (lib : collaborators BGPDAG).

Ltac unfold_io :=
  unfold mbind, io_bind, result_bind, mret, io_ret, result_ret, lift in *.

Local Abbreviation token := (strftime_Ym01 (dl_time self)).
Local Abbreviation dp := (download_path self).
Local Abbreviation cp := (cache_path self).
Local Abbreviation url_or_exn := (resolved self lib).

Lemma get_url_eq w :
  _get_url self lib w = (url_or_exn, logged (ListDir prepend) w).
Proof.
  unfold _get_url, resolved, log_request, logged. unfold_io.
  by destruct (get_hrefs lib prepend).
Qed.

(** [_write_cache_file], exit path by exit path. *)
Lemma write_cache_file_eq (cp : string) w :
  _write_cache_file self lib cp w =
  let w1 := logged (ListDir prepend) w in
  match url_or_exn with
  | Raise e => (Raise e, w1)
  | Ok url =>
      let w2 := logged (Download url) w1 in
      match download_file lib url with
      | Downloaded payload =>
          let kept := delete dp (<[dp := payload]> (files w)) in
          match bz2_readlines lib payload with
          | Ok data =>
              (Ok tt, with_files (<[cp := String.concat "" data]> kept) w2)
          | Raise e => (Raise e, with_files kept w2)
          end
      | Aborted (Some partial) e =>
          (Raise e, with_files (delete dp (<[dp := partial]> (files w))) w2)
      | Aborted None e => (Raise e, with_files (delete dp (files w)) w2)
      end
  end.
Proof.
  unfold _write_cache_file. unfold mbind at 1. unfold io_bind at 1.
  rewrite get_url_eq. destruct url_or_exn as [url|e]; [|done].
  unfold temp_path, download, read_text, write_text, remove_file,
    with_files, logged.
  unfold_io. cbn [files net_log].
  destruct (download_file lib url) as [payload|[partial|] e]; [|done..].
  cbn [files net_log]. rewrite lookup_insert_eq.
  by destruct (bz2_readlines lib payload).
Qed.

Lemma first_match_raises_iff tok hrefs :
  raises (first_match tok hrefs) <->
  forall x, x ∈ hrefs -> contains x tok = false.
Proof.
  unfold first_match, raises. induction hrefs as [|h hs IH]; simpl.
  - split; [intros _ x Hx; by apply elem_of_nil in Hx | by eexists].
  - destruct (contains h tok) eqn:Hh; simpl.
    + split; [by intros [e ?] |]. intros Hall.
      specialize (Hall h ltac:(left)). congruence.
    + rewrite IH. split.
      * intros Hall x [->|Hx]%elem_of_cons; [done | by apply Hall].
      * intros Hall x Hx. apply Hall. by right.
Qed.

Lemma first_match_none tok hrefs :
  (forall x, x ∈ hrefs -> contains x tok = false) ->
  first_match tok hrefs = Raise IndexError.
Proof.
  intros [e He]%first_match_raises_iff. rewrite He. f_equal.
  unfold first_match, first_item in He. by destruct (map _ _); simplify_eq.
Qed.

Lemma first_match_first tok pre x post :
  (forall y, y ∈ pre -> contains y tok = false) ->
  contains x tok = true ->
  first_match tok (pre ++ x :: post) = Ok (prepend +:+ x).
Proof.
  intros Hpre Hx. unfold first_match.
  induction pre as [|h hs IH]; simpl.
  - by rewrite Hx.
  - rewrite (Hpre h) by by left. apply IH. intros y Hy. apply Hpre. by right.
Qed.

(** C2, amended: on a listing, [_get_url] raises (an [IndexError], from
    taking item 0 of an empty list) exactly when no entry contains the
    vintage token, year and month followed by "01"; otherwise it returns
    the base URL followed by the first entry, in listing order, that
    contains the token, whether or not later entries contain it too. *)
Theorem get_url_takes_first_match (w : world) (hrefs : list string) :
  get_hrefs lib prepend = Ok hrefs ->
  (raises (_get_url self lib w).1 <->
     forall x, x ∈ hrefs -> contains x token = false) /\
  ((forall x, x ∈ hrefs -> contains x token = false) ->
     (_get_url self lib w).1 = Raise IndexError) /\
  (forall pre x post,
     hrefs = pre ++ x :: post ->
     (forall y, y ∈ pre -> contains y token = false) ->
     contains x token = true ->
     (_get_url self lib w).1 = Ok (prepend +:+ x)).
Proof.
  intros Hl. rewrite get_url_eq. unfold resolved. rewrite Hl.
  cbn [fst]. unfold mbind, result_bind.
  split; [apply first_match_raises_iff |].
  split; [apply first_match_none |].
  intros pre x post ->. apply first_match_first.
Qed.

Lemma append_t_not_2 a b : a +:+ "t" <> b +:+ "2".
Proof.
  revert b. induction a as [|c a IH]; intros [|d b]; simpl; try done.
  - by destruct b.
  - by destruct a.
  - intros [= _ H]. by apply IH in H.
Qed.

(** The cache file and the temporary download are different paths. *)
Lemma cache_path_not_download_path : cp <> dp.
Proof.
  unfold cache_path, download_path, path_join, strftime_Y_m_d_txt.
  set (d1 := cache_dir self). set (d2 := _dir self).
  set (y := decimal _). set (m := two_digits _). set (d := two_digits _).
  replace (d1 +:+ "/" +:+ y +:+ "." +:+ m +:+ "." +:+ d +:+ ".txt")
    with ((d1 +:+ "/" +:+ y +:+ "." +:+ m +:+ "." +:+ d +:+ ".tx") +:+ "t")
    by (by rewrite !append_assoc).
  replace (d2 +:+ "/" +:+ "download.bz2")
    with ((d2 +:+ "/download.bz") +:+ "2")
    by (by rewrite !append_assoc).
  apply append_t_not_2.
Qed.

(** Reading the cache file: what [_read_file] does after the fetch, if
    any. *)
Lemma read_file_eq cache w :
  _read_file self lib cache w =
  let read w1 :=
    match files w1 !! cp with
    | Some content => (Ok (map strip (readlines content)), w1)
    | None => (Raise (FileNotFoundError cp), w1)
    end in
  if bool_decide (is_Some (files w !! cp)) && cache then read w
  else match _write_cache_file self lib cp w with
       | (Ok _, w1) => read w1
       | (Raise e, w1) => (Raise e, w1)
       end.
Proof.
  unfold _read_file, path_exists, read_text. unfold_io. cbv zeta.
  destruct (bool_decide _), cache; simpl.
  - by destruct (files w !! cp).
  - destruct (_write_cache_file self lib cp w) as [[[]|e] w1]; [|done].
    by destruct (files w1 !! cp).
  - destruct (_write_cache_file self lib cp w) as [[[]|e] w1]; [|done].
    by destruct (files w1 !! cp).
  - destruct (_write_cache_file self lib cp w) as [[[]|e] w1]; [|done].
    by destruct (files w1 !! cp).
Qed.

Lemma read_file_hit content w :
  files w !! cp = Some content ->
  _read_file self lib true w = (Ok (map strip (readlines content)), w).
Proof.
  intros Hc. rewrite read_file_eq. cbv zeta.
  rewrite bool_decide_eq_true_2 by eauto. by rewrite Hc.
Qed.

Lemma run_eq cache w :
  run self lib cache w =
  match _read_file self lib cache w with
  | (Ok file_lines, w1) =>
      match _get_ases file_lines ≫= GraphCls self with
      | Ok bgp_dag =>
          (Ok bgp_dag,
           with_files (<[tsv_path self := tsv_of lib bgp_dag]> (files w1)) w1)
      | Raise e => (Raise e, w1)
      end
  | (Raise e, w1) => (Raise e, w1)
  end.
Proof.
  unfold run, _write_tsv, write_text, with_files. unfold_io.
  destruct (_read_file self lib cache w) as [[file_lines|e] w1]; [|done].
  destruct (_get_ases file_lines) as [sets|e]; [|done].
  by destruct (GraphCls self sets).
Qed.

Lemma write_cache_file_logs (c : string) w :
  exists l, net_log (_write_cache_file self lib c w).2
            = net_log w ++ ListDir prepend :: l.
Proof.
  rewrite write_cache_file_eq. unfold logged, with_files. cbv zeta.
  destruct url_or_exn as [url|e]; [|by exists []].
  destruct (download_file lib url) as [payload|[partial|] e];
    [destruct (bz2_readlines lib payload)|..];
    exists [Download url]; cbn [snd net_log]; by rewrite <- app_assoc.
Qed.

Lemma log_grows (l : list net_event) ev l' : l ++ ev :: l' <> l.
Proof.
  intros H. apply (f_equal length) in H.
  rewrite length_app in H. simpl in H. lia.
Qed.

Lemma fetches_after_download f url w :
  fetches (with_files f (logged (Download url) (logged (ListDir prepend) w)))
  = S (fetches w).
Proof.
  unfold fetches, with_files, logged. cbn [net_log].
  rewrite !List.filter_app, !length_app. simpl. lia.
Qed.

(** The world and the lines after a fetch that succeeds. *)
Lemma read_file_after_fetch cache w url payload data :
  bool_decide (is_Some (files w !! cp)) && cache = false ->
  url_or_exn = Ok url ->
  download_file lib url = Downloaded payload ->
  bz2_readlines lib payload = Ok data ->
  _read_file self lib cache w =
  (Ok (map strip (readlines (String.concat "" data))),
   with_files (<[cp := String.concat "" data]>
                 (delete dp (<[dp := payload]> (files w))))
              (logged (Download url) (logged (ListDir prepend) w))).
Proof.
  intros Hmiss Hurl Hdl Hbz. rewrite read_file_eq. cbv zeta. rewrite Hmiss.
  rewrite write_cache_file_eq. cbv zeta. rewrite Hurl, Hdl, Hbz.
  unfold with_files at 1 2. cbn [files]. by rewrite lookup_insert_eq.
Qed.

Lemma run_log cache w :
  net_log (run self lib cache w).2 = net_log (_read_file self lib cache w).2.
Proof.
  rewrite run_eq.
  destruct (_read_file self lib cache w) as [[file_lines|e] w1]; [|done].
  by destruct (_get_ases file_lines ≫= GraphCls self).
Qed.

(** C6, amended: [_read_file], and so [run], sends requests to the remote
    host exactly when the cache file of the collector's [dl_time], named
    after its year, month and day, is absent or the flag is false. With
    the flag false, a fetch that succeeds leaves the fetched content in the
    cache file, whatever the file held before, and that content is what
    is read. With the flag true, no cache file at the start and a fetch
    that succeeds, two runs in a row download once (the second sends no
    request) and the second run returns what the first returned, from
    the same lines. Both runs are those of one collector, so of one
    [dl_time], day included. *)
Theorem read_file_fetches_when_needed (cache : bool) (w : world) :
  (net_log (_read_file self lib cache w).2 <> net_log w <->
     files w !! cp = None \/ cache = false) /\
  (net_log (run self lib cache w).2 <> net_log w <->
     files w !! cp = None \/ cache = false) /\
  (forall url payload data,
     url_or_exn = Ok url ->
     download_file lib url = Downloaded payload ->
     bz2_readlines lib payload = Ok data ->
     let w1 := (_read_file self lib false w).2 in
     files w1 !! cp = Some (String.concat "" data) /\
     (_read_file self lib false w).1
       = Ok (map strip (readlines (String.concat "" data))) /\
     fetches w1 = S (fetches w)) /\
  (forall url payload data,
     tsv_path self <> cp ->
     files w !! cp = None ->
     url_or_exn = Ok url ->
     download_file lib url = Downloaded payload ->
     bz2_readlines lib payload = Ok data ->
     let w1 := (run self lib true w).2 in
     let w2 := (run self lib true w1).2 in
     fetches w1 = S (fetches w) /\
     fetches w2 = S (fetches w) /\
     net_log w2 = net_log w1 /\
     (run self lib true w1).1 = (run self lib true w).1 /\
     (_read_file self lib true w1).1 = (_read_file self lib true w).1).
Proof.
  assert (net_log (_read_file self lib cache w).2 <> net_log w <->
     files w !! cp = None \/ cache = false) as Hpolicy; [|split; [done |]; split;
       [by rewrite run_log |]; split].
  - rewrite read_file_eq. cbv zeta.
    destruct (files w !! cp) as [content|] eqn:Hc.
    + rewrite bool_decide_eq_true_2 by eauto. destruct cache; simpl.
      * rewrite ?Hc. split; [done | intros [|]; done].
      * split; [by right |]. intros _.
        destruct (write_cache_file_logs cp w) as [l Hl].
        destruct (_write_cache_file self lib cp w) as [[[]|e] w1];
          simpl in *; [destruct (files w1 !! cp)|]; simpl; rewrite Hl;
          apply log_grows.
    + rewrite bool_decide_eq_false_2 by (by intros [? ?]). simpl.
      split; [by left |]. intros _.
      destruct (write_cache_file_logs cp w) as [l Hl].
      destruct (_write_cache_file self lib cp w) as [[[]|e] w1];
        simpl in *; [destruct (files w1 !! cp)|]; simpl; rewrite Hl;
        apply log_grows.
  - intros url payload data Hurl Hdl Hbz.
    rewrite (read_file_after_fetch false w url payload data);
      [|apply andb_false_r|done..].
    cbn [fst snd]. split; [|split; [done |]].
    + unfold with_files. cbn [files]. by rewrite lookup_insert_eq.
    + apply fetches_after_download.
  - intros url payload data Htsv Hnone Hurl Hdl Hbz.
    set (content := String.concat "" data).
    set (lines := map strip (readlines content)).
    set (w' := with_files (<[cp := content]>
                 (delete dp (<[dp := payload]> (files w))))
                 (logged (Download url) (logged (ListDir prepend) w))).
    assert (_read_file self lib true w = (Ok lines, w')) as Hread.
    { apply read_file_after_fetch; try done.
      by rewrite Hnone, bool_decide_eq_false_2 by (by intros [? ?]). }
    assert (files w' !! cp = Some content) as Hc'.
    { unfold w', with_files. cbn [files]. by rewrite lookup_insert_eq. }
    assert (fetches w' = S (fetches w)) as Hf'
      by apply fetches_after_download.
    assert (exists w1, run self lib true w = ((_get_ases lines ≫= GraphCls self), w1)
              /\ files w1 !! cp = Some content /\ net_log w1 = net_log w') as
      (w1 & Hrun1 & Hc1 & Hlog1).
    { rewrite run_eq, Hread.
      destruct (_get_ases lines ≫= GraphCls self) as [g|e].
      - eexists. split; [done |]. unfold with_files. cbn [files net_log].
        by rewrite lookup_insert_ne.
      - by exists w'. }
    assert (exists w2, run self lib true w1 = ((_get_ases lines ≫= GraphCls self), w2)
              /\ net_log w2 = net_log w1) as (w2 & Hrun2 & Hlog2).
    { rewrite run_eq, (read_file_hit content w1 Hc1). fold lines.
      destruct (_get_ases lines ≫= GraphCls self) as [g|e].
      - eexists. split; [done |]. done.
      - by exists w1. }
    rewrite Hrun1. cbn [fst snd]. rewrite Hrun2. cbn [fst snd].
    rewrite (read_file_hit content w1 Hc1), Hread. cbn [fst].
    unfold fetches in *. rewrite Hlog2, Hlog1. done.
Qed.

(** Once the URL is resolved the block of [temp_path] is entered, and
    whichever way it is left, the temporary file is gone. *)
Lemma write_cache_file_entered w url :
  url_or_exn = Ok url ->
  files (_write_cache_file self lib cp w).2 !! dp = None.
Proof.
  intros Hurl. rewrite write_cache_file_eq. cbv zeta. rewrite Hurl.
  pose proof cache_path_not_download_path as Hne.
  destruct (download_file lib url) as [payload|[partial|] e];
    [destruct (bz2_readlines lib payload)|..];
    unfold with_files; cbn [snd files].
  all: rewrite ?lookup_insert_ne by done.
  all: rewrite lookup_delete_eq; reflexivity.
Qed.

Lemma write_cache_file_not_entered w e :
  url_or_exn = Raise e -> files (_write_cache_file self lib cp w).2 = files w.
Proof.
  intros Hurl. rewrite write_cache_file_eq. cbv zeta. by rewrite Hurl.
Qed.

Lemma write_cache_file_keeps_absent w :
  files w !! dp = None ->
  files (_write_cache_file self lib cp w).2 !! dp = None.
Proof.
  intros Hnone. destruct url_or_exn as [url|e] eqn:Hurl.
  - by eapply write_cache_file_entered.
  - by rewrite (write_cache_file_not_entered w e Hurl).
Qed.

(** C9: when [_write_cache_file] returns or raises, no file is left at
    the path of the temporary download: if none was there before the
    call, none is there after it, and so after any number of calls in a
    row, failed or not; and once the URL is resolved, so that the
    download is attempted, none is there after the call on any exit path
    (transfer raised, with or without a partly written file;
    decompression raised; success). When the URL is not resolved, no
    file is touched. *)
Theorem temp_download_file_removed (w : world) :
  let call w0 := (_write_cache_file self lib cp w0).2 in
  (files w !! dp = None -> files (call w) !! dp = None) /\
  (files w !! dp = None ->
   forall n : nat, files (Nat.iter n call w) !! dp = None) /\
  (forall url, url_or_exn = Ok url -> files (call w) !! dp = None) /\
  (forall e, url_or_exn = Raise e -> files (call w) = files w).
Proof.
  cbv zeta. split; [apply write_cache_file_keeps_absent |].
  split; [|split].
  - intros Hnone n. induction n as [|n IH]; simpl; [done |].
    by apply write_cache_file_keeps_absent.
  - apply write_cache_file_entered.
  - apply write_cache_file_not_entered.
Qed.

(** C10: the empty line is no comment and holds no "-1", so it goes to
    peer extraction, where the split on the pipe gives one field and the
    unpacking into four raises; an input with an empty line therefore
    makes the pass raise [ValueError], and so does a run on a cache file
    that has a blank line, which [_read_file] strips to the empty line. *)
Theorem empty_line_aborts_pass
    (lines : list string) (w : world) (content raw : string) :
  (forall st, classify_line "" st = Raise (ValueError_unpack_not_enough 4 1)) /\
  ("" ∈ lines -> raises_ValueError (_get_ases lines)) /\
  (files w !! cp = Some content ->
   raw ∈ readlines content -> strip raw = "" ->
   raises_ValueError (run self lib true w).1).
Proof.
  assert (forall st, classify_line "" st
            = Raise (ValueError_unpack_not_enough 4 1)) as Hempty
    by (by intros [[[? ?] ?] ?]).
  assert (forall ls, "" ∈ ls -> raises_ValueError (_get_ases ls)) as Hpass.
  { intros ls Hin. apply (classify_lines_bad_line ls "" Hin).
    intros st. rewrite Hempty. by eexists. }
  split; [done |]. split; [apply Hpass |].
  intros Hc Hraw Hstrip. rewrite run_eq, (read_file_hit content w Hc).
  destruct (Hpass (map strip (readlines content))) as (e & He & Hv).
  { rewrite <- Hstrip. by apply list_elem_of_fmap_2. }
  rewrite He. exists e. done.
Qed.

End CollectorFacts.

(** ** Sample runs *)

(** C2, counterexample: the listing has two entries that contain the
    token of September 2021; [_get_url] does not raise and returns the
    first of them. *)
Lemma get_url_two_matches_returns_first :
  let hrefs := ["20210901.as-rel2.txt.bz2"; "20210901.ppdc-ases.txt.bz2"] in
  let lib := sample_lib hrefs (Downloaded "") (Ok []) in
  strftime_Ym01 (dl_time sample_collector) = "20210901" /\
  length (List.filter (fun x => Py.contains x "20210901") hrefs) = 2%nat /\
  (_get_url sample_collector lib empty_world).1
    = Ok (prepend +:+ "20210901.as-rel2.txt.bz2").
Proof. repeat split; vm_compute; reflexivity. Qed.

Lemma get_url_takes_first_match_witness :
  (_get_url sample_collector
     (sample_lib ["20210801.as-rel2.txt.bz2"; "20210901.as-rel2.txt.bz2";
                  "20210901.ppdc-ases.txt.bz2"] (Downloaded "") (Ok []))
     empty_world).1
  = Ok (prepend +:+ "20210901.as-rel2.txt.bz2").
Proof.
  destruct (get_url_takes_first_match sample_collector
              (sample_lib ["20210801.as-rel2.txt.bz2"; "20210901.as-rel2.txt.bz2";
                           "20210901.ppdc-ases.txt.bz2"] (Downloaded "") (Ok []))
              empty_world _ eq_refl) as (_ & _ & Hfirst).
  apply (Hfirst ["20210801.as-rel2.txt.bz2"] "20210901.as-rel2.txt.bz2"
                ["20210901.ppdc-ases.txt.bz2"]); [reflexivity | | reflexivity].
  intros y Hy. apply list_elem_of_singleton in Hy. rewrite Hy. reflexivity.
Defined.

(** C6, counterexample: two runs on the vintage of September 2021, with
    the cache in use, one by a collector of the 7th and one by a collector
    of the 8th. Year, month and URL token are the same; the cache file is
    named after the day, so the second run finds none and fetches again:
    two fetches for one vintage. *)
Lemma same_vintage_next_day_fetches_again :
  let lib := sample_lib ["20210901.as-rel2.txt.bz2"] (Downloaded "BZh91AY")
               (Ok two_text_lines) in
  let w1 := (run sample_collector lib true empty_world).2 in
  let w2 := (run next_day_collector lib true w1).2 in
  year (dl_time next_day_collector) = year (dl_time sample_collector) /\
  month (dl_time next_day_collector) = month (dl_time sample_collector) /\
  strftime_Ym01 (dl_time next_day_collector)
    = strftime_Ym01 (dl_time sample_collector) /\
  files w1 !! cache_path sample_collector
    = Some (String.concat "" two_text_lines) /\
  files w1 !! cache_path next_day_collector = None /\
  fetches w1 = 1%nat /\
  fetches w2 = 2%nat /\
  (run next_day_collector lib true w1).1
    = (run sample_collector lib true empty_world).1.
Proof. repeat split; vm_compute; reflexivity. Qed.

Lemma read_file_fetches_when_needed_witness :
  let lib := sample_lib ["20210901.as-rel2.txt.bz2"] (Downloaded "BZh91AY")
               (Ok ["1|2|-1|bgp" +:+ String "010" ""; "2|3|0|bgp" +:+ String "010" ""]) in
  let w1 := (run sample_collector lib true empty_world).2 in
  let w2 := (run sample_collector lib true w1).2 in
  fetches w1 = 1%nat /\ fetches w2 = 1%nat /\
  (run sample_collector lib true w1).1
    = (run sample_collector lib true empty_world).1.
Proof.
  intros lib w1 w2.
  destruct (read_file_fetches_when_needed sample_collector lib true empty_world)
    as (_ & _ & _ & Htwice).
  destruct (Htwice (prepend +:+ "20210901.as-rel2.txt.bz2") "BZh91AY"
              ["1|2|-1|bgp" +:+ String "010" ""; "2|3|0|bgp" +:+ String "010" ""])
    as (H1 & H2 & _ & Hsame & _); try reflexivity.
  - intros Heq. vm_compute in Heq. discriminate Heq.
  - repeat split; assumption.
Defined.

Lemma temp_download_file_removed_witness :
  let lib := sample_lib ["20210901.as-rel2.txt.bz2"]
               (Aborted (Some "BZh") (ExternalError "download_file")) (Ok []) in
  files (_write_cache_file sample_collector lib (cache_path sample_collector)
           empty_world).2 !! download_path sample_collector = None.
Proof.
  intros lib.
  destruct (temp_download_file_removed sample_collector lib empty_world)
    as (Habsent & _ & _ & _).
  apply Habsent. reflexivity.
Defined.

Lemma empty_line_aborts_pass_witness :
  raises_ValueError (_get_ases ["1|2|-1|bgp"; ""; "2|3|0|bgp"]) /\
  raises_ValueError
    (run sample_collector (sample_lib [] (Downloaded "") (Ok [])) true
       {| files := {[ cache_path sample_collector :=
                        "1|2|-1|bgp" +:+ String "010" (String "010" "2|3|0|bgp") ]};
          net_log := [] |}).1.
Proof.
  destruct (empty_line_aborts_pass sample_collector
              (sample_lib [] (Downloaded "") (Ok []))
              ["1|2|-1|bgp"; ""; "2|3|0|bgp"]
              {| files := {[ cache_path sample_collector :=
                        "1|2|-1|bgp" +:+ String "010" (String "010" "2|3|0|bgp") ]};
                 net_log := [] |}
              ("1|2|-1|bgp" +:+ String "010" (String "010" "2|3|0|bgp"))
              (String "010" ""))
    as (_ & Hpass & Hrun).
  split.
  - apply Hpass. set_solver.
  - apply Hrun; [reflexivity | vm_compute; set_solver | reflexivity].
Defined.

(** * Further properties of the classifier *)

Section ClassifierAlgebra.
Import Py PyFacts.

Ltac unfold_bind := unfold mbind, result_bind, mret, result_ret in *.

Ltac set_ext :=
  apply set_eq; intros ?; rewrite ?elem_of_union, ?elem_of_empty; tauto.

Lemma ases_eq (a a' : gset CPLink) (b b' : gset PeerLink) (c c' d d' : gset Z) :
  a = a' -> b = b' -> c = c' -> d = d' -> (a, b, c, d) = (a', b', c', d').
Proof. congruence. Qed.

Lemma union4_assoc r1 r2 r3 :
  union4 (union4 r1 r2) r3 = union4 r1 (union4 r2 r3).
Proof.
  destruct r1 as [[[a1 b1] c1] d1], r2 as [[[a2 b2] c2] d2],
    r3 as [[[a3 b3] c3] d3].
  unfold union4. cbn [fst snd]. apply ases_eq; set_ext.
Qed.

Lemma union4_empty_l r : union4 no_sets r = r.
Proof.
  destruct r as [[[a b] c] d]. unfold union4, no_sets. cbn [fst snd].
  apply ases_eq; set_ext.
Qed.

Lemma union4_empty_r r : union4 r no_sets = r.
Proof.
  destruct r as [[[a b] c] d]. unfold union4, no_sets. cbn [fst snd].
  apply ases_eq; set_ext.
Qed.

Lemma sub4_refl r : sub4 r r.
Proof. by unfold sub4. Qed.

Lemma sub4_antisym r1 r2 : sub4 r1 r2 -> sub4 r2 r1 -> r1 = r2.
Proof.
  destruct r1 as [[[a1 b1] c1] d1], r2 as [[[a2 b2] c2] d2].
  unfold sub4. cbn [fst snd]. intros (A & B & C & D) (A' & B' & C' & D').
  apply ases_eq; apply set_eq; intros x; split; auto.
Qed.

Lemma sub4_union_l r1 r2 r : sub4 r1 r -> sub4 r2 r -> sub4 (union4 r1 r2) r.
Proof.
  unfold sub4, union4. cbn [fst snd].
  intros (A & B & C & D) (A' & B' & C' & D').
  repeat split; intros x [?|?]%elem_of_union; auto.
Qed.

Lemma sub4_union_r1 r r1 r2 : sub4 r r1 -> sub4 r (union4 r1 r2).
Proof.
  unfold sub4, union4. cbn [fst snd]. intros (A & B & C & D).
  repeat split; intros x Hx; apply elem_of_union; left; auto.
Qed.

Lemma sub4_union_r2 r r1 r2 : sub4 r r2 -> sub4 r (union4 r1 r2).
Proof.
  unfold sub4, union4. cbn [fst snd]. intros (A & B & C & D).
  repeat split; intros x Hx; apply elem_of_union; right; auto.
Qed.

Lemma add_asns_union tokens a s :
  add_asns tokens (a ∪ s) = r ← add_asns tokens a; Ok (r ∪ s).
Proof.
  revert a. induction tokens as [|t ts IH]; intros a; simpl; [done |].
  unfold_bind. destruct (int t) as [n|e]; [|done].
  by rewrite (assoc_L (∪)), IH.
Qed.

Lemma add_asns_from_empty tokens s :
  add_asns tokens s = r ← add_asns tokens ∅; Ok (r ∪ s).
Proof. by rewrite <- add_asns_union, (left_id_L ∅ (∪)). Qed.

(** A line is classified the same way whatever was collected before:
    its own sets are joined to the state. *)
Lemma classify_line_union line st :
  classify_line line st = d ← contribution line; Ok (union4 d st).
Proof.
  unfold contribution, no_sets, classify_line.
  destruct st as [[[cp pl] ix] ic]. unfold_bind.
  destruct (startswith line "# input clique").
  { unfold _extract_input_clique. unfold_bind.
    destruct (last_item _) as [t|e]; [|done].
    rewrite (add_asns_from_empty _ ic).  unfold_bind.
    destruct (add_asns _ ∅) as [r|e]; [|done].
    unfold union4. cbn [fst snd]. by rewrite !(left_id_L ∅ (∪)). }
  destruct (startswith line "# IXP ASes").
  { unfold _extract_ixp_ases. unfold_bind.
    destruct (last_item _) as [t|e]; [|done].
    rewrite (add_asns_from_empty _ ix).  unfold_bind.
    destruct (add_asns _ ∅) as [r|e]; [|done].
    unfold union4. cbn [fst snd]. by rewrite !(left_id_L ∅ (∪)). }
  destruct (negb _).
  - destruct (contains line "-1").
    + unfold _extract_provider_customers. unfold_bind.
      destruct (unpack4 _) as [[[[f1 f2] f3] f4]|e]; [|done].
      destruct (int f2) as [c|e]; [|done]. destruct (int f1) as [q|e]; [|done].
      unfold union4. cbn [fst snd].
      by rewrite !(left_id_L ∅ (∪)), (right_id_L ∅ (∪)).
    + unfold _extract_peers. unfold_bind.
      destruct (unpack4 _) as [[[[f1 f2] f3] f4]|e]; [|done].
      destruct (int f1) as [c|e]; [|done]. destruct (int f2) as [q|e]; [|done].
      unfold union4. cbn [fst snd].
      by rewrite !(left_id_L ∅ (∪)), (right_id_L ∅ (∪)).
  - unfold union4. cbn [fst snd]. by rewrite !(left_id_L ∅ (∪)).
Qed.

Lemma classify_lines_union lines st :
  classify_lines lines st = r ← _get_ases lines; Ok (union4 r st).
Proof.
  unfold _get_ases. fold no_sets. revert st.
  induction lines as [|l ls IH]; intros st; cbn [classify_lines].
  - unfold_bind. by rewrite (union4_empty_l st).
  - rewrite (classify_line_union l st).
    rewrite (classify_line_union l no_sets). unfold_bind.
    destruct (contribution l) as [d|e]; [|done].
    rewrite (IH (union4 d st)), (IH (union4 d no_sets)). unfold_bind.
    destruct (classify_lines ls no_sets) as [r|e]; [|done].
    by rewrite (union4_empty_r d), union4_assoc.
Qed.

Lemma Ok_or_raises {A} (x : result A) : (exists a, x = Ok a) \/ raises x.
Proof. destruct x as [a|e]; [left | right]; by eexists. Qed.

Lemma union4_comm r1 r2 : union4 r1 r2 = union4 r2 r1.
Proof.
  destruct r1 as [[[a1 b1] c1] d1], r2 as [[[a2 b2] c2] d2].
  unfold union4. cbn [fst snd]. apply ases_eq; set_ext.
Qed.

Lemma get_ases_cons line lines :
  _get_ases (line :: lines) =
  d ← contribution line; r ← _get_ases lines; Ok (union4 r d).
Proof.
  unfold _get_ases at 1. cbn [classify_lines]. fold no_sets.
  fold (contribution line). unfold_bind.
  destruct (contribution line) as [d|e]; [|done].
  apply classify_lines_union.
Qed.

Lemma get_ases_ok_iff lines r :
  _get_ases lines = Ok r <->
  Forall (fun x => exists d, contribution x = Ok d) lines /\
  r = contributed_by lines.
Proof.
  revert r. induction lines as [|l ls IH]; intros r.
  - unfold _get_ases. cbn [classify_lines contributed_by foldr]. fold no_sets.
    split; [intros Heq; split; [constructor | congruence] | by intros [_ ->]].
  - rewrite get_ases_cons. unfold_bind. cbn [contributed_by foldr].
    fold (contributed_by ls). unfold contributed at 1.
    destruct (contribution l) as [d|e] eqn:Hl.
    + destruct (_get_ases ls) as [r'|e'] eqn:Hls.
      * destruct (proj1 (IH r') eq_refl) as [Hall ->]. split.
        -- intros Heq.
           assert (r = union4 (contributed_by ls) d) as -> by congruence.
           split; [|done]. constructor; [by exists d | done].
        -- by intros [_ ->].
      * split; [done |]. intros [Hall _].
        inversion Hall as [|? ? _ Hall']; subst.
        assert (Raise e' = Ok (contributed_by ls)) by (by apply IH). done.
    + split; [done |]. intros [Hall _].
      inversion Hall as [|? ? [d Hd] _]; subst. congruence.
Qed.

Lemma contributed_sub lines x :
  x ∈ lines -> sub4 (contributed x) (contributed_by lines).
Proof.
  induction 1 as [x ls|x y ls Hin IH]; cbn [contributed_by foldr];
    fold (contributed_by ls).
  - apply sub4_union_r2, sub4_refl.
  - by apply sub4_union_r1.
Qed.

Lemma contributed_by_mono l l' :
  (forall x, x ∈ l -> x ∈ l') -> sub4 (contributed_by l) (contributed_by l').
Proof.
  induction l as [|x ls IH]; intros Hsub.
  - unfold contributed_by, sub4, no_sets. cbn.
    repeat split; intros y Hy; by apply elem_of_empty in Hy.
  - cbn [contributed_by foldr]. fold (contributed_by ls).
    apply sub4_union_l.
    + apply IH. intros y Hy. apply Hsub. by right.
    + apply contributed_sub, Hsub. by left.
Qed.

End ClassifierAlgebra.

(** X1: the result of the pass depends on which lines the input holds,
    not on their order or on how often each occurs: two inputs with the
    same lines give the same four sets, or both raise. *)
Theorem get_ases_depends_on_line_set (l l' : list string) :
  (forall x, x ∈ l <-> x ∈ l') ->
  (forall r, _get_ases l = Ok r <-> _get_ases l' = Ok r) /\
  (raises (_get_ases l) <-> raises (_get_ases l')).
Proof.
  intros Hsame.
  assert (forall a b : list string, (forall x, x ∈ a <-> x ∈ b) ->
            forall r, _get_ases a = Ok r -> _get_ases b = Ok r) as Hdir.
  { intros a b Hab r [Hall ->]%get_ases_ok_iff. apply get_ases_ok_iff. split.
    - apply Forall_forall. intros x Hx. apply Hab in Hx.
      by apply (proj1 (Forall_forall _ _) Hall).
    - apply sub4_antisym; apply contributed_by_mono; intros x; apply Hab. }
  assert (forall r, _get_ases l = Ok r <-> _get_ases l' = Ok r) as Hiff.
  { intros r. split; apply Hdir; [done |]. intros x. by rewrite Hsame. }
  split; [done |]. unfold raises.
  split; intros [e He].
  - destruct (Ok_or_raises (_get_ases l')) as [[r Hr]|Hr]; [|done].
    apply Hiff in Hr. congruence.
  - destruct (Ok_or_raises (_get_ases l)) as [[r Hr]|Hr]; [|done].
    apply Hiff in Hr. congruence.
Qed.

Lemma get_ases_depends_on_line_set_witness :
  _get_ases ["2|3|0|b"; "1|2|-1|a"; "2|3|0|b"] = Ok ({[new_CPLink 1 2]}, {[new_PeerLink 2 3]}, ∅, ∅).
Proof.
  apply (get_ases_depends_on_line_set ["1|2|-1|a"; "2|3|0|b"]
           ["2|3|0|b"; "1|2|-1|a"; "2|3|0|b"]).
  - intros x. rewrite !elem_of_cons, !elem_of_nil. tauto.
  - vm_compute. reflexivity.
Defined.

(** X2: classifying a concatenation is classifying the two parts and
    joining their sets; the exception of a failing first part wins over
    the second part. *)
Theorem get_ases_app (l1 l2 : list string) :
  _get_ases (l1 ++ l2) =
  r1 ← _get_ases l1; r2 ← _get_ases l2; Ok (union4 r1 r2).
Proof.
  unfold _get_ases at 1. rewrite classify_lines_app.
  fold (_get_ases l1). unfold mbind, result_bind.
  destruct (_get_ases l1) as [r1|e]; [|done].
  rewrite classify_lines_union. unfold mbind, result_bind.
  destruct (_get_ases l2) as [r2|e]; [|done].
  by rewrite union4_comm.
Qed.

(** X3: the exception of the pass is that of the first line that cannot
    be classified, whatever the lines before it collected and whatever
    follows it. *)
Theorem first_bad_line_decides (pre post : list string) (line : string)
    (r : ases) (e : exn) :
  _get_ases pre = Ok r ->
  contribution line = Raise e ->
  _get_ases (pre ++ line :: post) = Raise e.
Proof.
  intros Hpre Hline. unfold _get_ases in *. rewrite classify_lines_app, Hpre.
  unfold mbind, result_bind. cbn [classify_lines].
  rewrite classify_line_union, Hline. done.
Qed.

Lemma first_bad_line_decides_witness :
  _get_ases (["1|2|-1|a"] ++ "x|3|0|b" :: ["4|5"]) = Raise (ValueError_int "x").
Proof.
  apply (first_bad_line_decides _ _ _ ({[new_CPLink 1 2]}, ∅, ∅, ∅));
    vm_compute; reflexivity.
Defined.

(** X4: a comment line that is neither the clique nor the IXP declaration
    is ignored wherever it stands. *)
Theorem plain_comment_ignored (l1 l2 : list string) (c : string) :
  plain_comment c = true ->
  _get_ases (l1 ++ c :: l2) = _get_ases (l1 ++ l2).
Proof.
  unfold plain_comment. intros [[Hc Hq]%andb_true_iff Hx]%andb_true_iff.
  apply negb_true_iff in Hq, Hx.
  assert (forall st, classify_line c st = Ok st) as Hskip.
  { intros [[[cp pl] ix] ic]. unfold classify_line. by rewrite Hq, Hx, Hc. }
  unfold _get_ases. rewrite !classify_lines_app.
  unfold mbind, result_bind.
  destruct (classify_lines l1 _) as [st|e]; [|done].
  cbn [classify_lines]. by rewrite Hskip.
Qed.

Lemma plain_comment_ignored_witness :
  _get_ases (["1|2|-1|a"] ++ "# source:topology|BGP|-1" :: ["2|3|0|b"])
  = _get_ases (["1|2|-1|a"] ++ ["2|3|0|b"]).
Proof. apply plain_comment_ignored. reflexivity. Defined.

(** X5: a line adds to one set only. A line that starts with "#" adds no
    link and touches at most one of the clique and IXP sets; any other
    line that classifies adds exactly one link, to exactly one of the two
    link sets, and no ASN to the clique or IXP set. *)
Theorem line_feeds_one_set (line : string)
    (cp : gset CPLink) (pl : gset PeerLink) (ix ic : gset Z) :
  contribution line = Ok (cp, pl, ix, ic) ->
  if Py.startswith line "#"
  then cp = ∅ /\ pl = ∅ /\ (ix = ∅ \/ ic = ∅)
  else ix = ∅ /\ ic = ∅ /\
       ((size cp = 1%nat /\ pl = ∅) \/ (cp = ∅ /\ size pl = 1%nat)).
Proof.
  unfold contribution, no_sets, classify_line.
  unfold mbind, result_bind.
  destruct (Py.startswith line "#") eqn:Hc.
  - destruct (Py.startswith line "# input clique").
    { destruct (_extract_input_clique _ _); [|done].
      intros Heq. assert (cp = ∅ /\ pl = ∅ /\ ix = ∅) as (-> & -> & ->)
        by (repeat split; congruence). auto. }
    destruct (Py.startswith line "# IXP ASes").
    { destruct (_extract_ixp_ases _ _); [|done].
      intros Heq. assert (cp = ∅ /\ pl = ∅ /\ ic = ∅) as (-> & -> & ->)
        by (repeat split; congruence). auto. }
    cbn [negb]. intros Heq.
    assert (cp = ∅ /\ pl = ∅ /\ ix = ∅) as (-> & -> & ->)
      by (repeat split; congruence). auto.
  - rewrite !(startswith_hash _ _ Hc). cbn [negb].
    destruct (Py.contains line "-1").
    + unfold _extract_provider_customers. unfold mbind, result_bind.
      destruct (unpack4 _) as [[[[f1 f2] f3] f4]|]; [|done].
      destruct (Py.int f2) as [c|]; [|done].
      destruct (Py.int f1) as [q|]; [|done].
      intros Heq.
      assert (cp = {[new_CPLink q c]} ∪ ∅ /\ pl = ∅ /\ ix = ∅ /\ ic = ∅)
        as (-> & -> & -> & ->) by (repeat split; congruence).
      repeat split. left. by rewrite (right_id_L ∅ (∪)), size_singleton.
    + unfold _extract_peers. unfold mbind, result_bind.
      destruct (unpack4 _) as [[[[f1 f2] f3] f4]|]; [|done].
      destruct (Py.int f1) as [c|]; [|done].
      destruct (Py.int f2) as [q|]; [|done].
      intros Heq.
      assert (cp = ∅ /\ pl = {[new_PeerLink c q]} ∪ ∅ /\ ix = ∅ /\ ic = ∅)
        as (-> & -> & -> & ->) by (repeat split; congruence).
      repeat split. right. by rewrite (right_id_L ∅ (∪)), size_singleton.
Qed.

Lemma line_feeds_one_set_witness :
  (∅ : gset Z) = ∅ /\ (∅ : gset Z) = ∅ /\
  ((size ({[new_CPLink 1 2]} : gset CPLink) = 1%nat /\ (∅ : gset PeerLink) = ∅) \/
   (({[new_CPLink 1 2]} : gset CPLink) = ∅ /\ size (∅ : gset PeerLink) = 1%nat)).
Proof.
  apply (line_feeds_one_set "1|2|-1|a" {[new_CPLink 1 2]} ∅ ∅ ∅).
  vm_compute. reflexivity.
Defined.

(** ** Errors of relationship lines *)

Section DataLineErrors.
Import Py PyFacts.

Lemma length_split sep s : length (split sep s) = S (count_char sep s).
Proof.
  induction s as [|c s IH]; [done |]. cbn [split count_char].
  pose proof (split_nonempty sep s) as Hne.
  destruct (Ascii.eqb c sep); cbn [length]; [by rewrite IH |].
  destruct (split sep s); [done |]. cbn [length] in *. lia.
Qed.

Lemma unpack4_short {A} (l : list A) :
  (length l < 4)%nat ->
  unpack4 l = Raise (ValueError_unpack_not_enough 4 (length l)).
Proof.
  destruct l as [|a [|b [|c [|d [|x l]]]]]; cbn; intros Hl; try done; lia.
Qed.

Lemma unpack4_long {A} (l : list A) :
  (4 < length l)%nat -> unpack4 l = Raise (ValueError_unpack_too_many 4).
Proof.
  destruct l as [|a [|b [|c [|d [|x l]]]]]; cbn; intros Hl; try done; lia.
Qed.

End DataLineErrors.

(** X6: a line that is no comment and holds fewer than three pipes raises
    the "not enough values to unpack" [ValueError], with the number of
    fields it has (one more than its pipes); one with more than three
    pipes raises the "too many values" one. Neither depends on what the
    fields hold or on what was collected before. *)
Theorem data_line_field_count (line : string) (st : ases) :
  Py.startswith line "#" = false ->
  ((count_char "|" line < 3)%nat ->
     classify_line line st
     = Raise (ValueError_unpack_not_enough 4 (S (count_char "|" line)))) /\
  ((3 < count_char "|" line)%nat ->
     classify_line line st = Raise (ValueError_unpack_too_many 4)).
Proof.
  intros Hd. destruct st as [[[cp pl] ix] ic].
  rewrite (classify_data_line _ _ _ _ _ Hd).
  unfold _extract_provider_customers, _extract_peers.
  pose proof (length_split "|" line) as Hlen.
  split; intros Hn.
  - rewrite unpack4_short by lia. rewrite Hlen.
    by destruct (Py.contains line "-1").
  - rewrite unpack4_long by lia.
    by destruct (Py.contains line "-1").
Qed.

Lemma data_line_field_count_witness :
  classify_line "1|2|-1" no_sets = Raise (ValueError_unpack_not_enough 4 3) /\
  classify_line "1|2|0|bgp|x" no_sets = Raise (ValueError_unpack_too_many 4).
Proof.
  split.
  - apply (data_line_field_count "1|2|-1" no_sets); [reflexivity | vm_compute; lia].
  - apply (data_line_field_count "1|2|0|bgp|x" no_sets); [reflexivity | vm_compute; lia].
Defined.

(** X7: in a four-field line the [ValueError] names the first ASN field
    that fails in the order the code converts them: for a line holding
    "-1" the customer (second) field, then the provider (first) field;
    for any other line the first field, then the second. *)
Theorem asn_error_names_field (line f1 f2 f3 f4 : string) (st : ases) :
  Py.startswith line "#" = false ->
  Py.split "|" line = [f1; f2; f3; f4] ->
  (Py.contains line "-1" = true ->
     (Py.parse_int f2 = None ->
        classify_line line st = Raise (ValueError_int f2)) /\
     (forall c, Py.parse_int f2 = Some c -> Py.parse_int f1 = None ->
        classify_line line st = Raise (ValueError_int f1))) /\
  (Py.contains line "-1" = false ->
     (Py.parse_int f1 = None ->
        classify_line line st = Raise (ValueError_int f1)) /\
     (forall p, Py.parse_int f1 = Some p -> Py.parse_int f2 = None ->
        classify_line line st = Raise (ValueError_int f2))).
Proof.
  intros Hd Hs. destruct st as [[[cp pl] ix] ic].
  rewrite (classify_data_line _ _ _ _ _ Hd).
  unfold _extract_provider_customers, _extract_peers. rewrite Hs.
  unfold unpack4, mbind, result_bind.
  split; intros ->; (split; [intros H1 | intros v Hv H1]).
  - by rewrite (int_None _ H1).
  - by rewrite (int_Ok _ _ Hv), (int_None _ H1).
  - by rewrite (int_None _ H1).
  - by rewrite (int_Ok _ _ Hv), (int_None _ H1).
Qed.

Lemma asn_error_names_field_witness :
  classify_line "x|y|-1|bgp" no_sets = Raise (ValueError_int "y") /\
  classify_line "x|y|0|bgp" no_sets = Raise (ValueError_int "x").
Proof.
  split.
  - apply (asn_error_names_field "x|y|-1|bgp" "x" "y" "-1" "bgp" no_sets);
      reflexivity.
  - apply (asn_error_names_field "x|y|0|bgp" "x" "y" "0" "bgp" no_sets);
      reflexivity.
Defined.

(** ** Decimal numerals and the lines of the published files *)

Section DecimalFacts.
Import Py PyFacts.

Lemma digit_not_c_space c : is_digit c = true -> is_c_space c = false.
Proof. destruct c as [[] [] [] [] [] [] [] []]; vm_compute; done. Qed.

Lemma digit_not_space c : is_digit c = true -> isspace c = false.
Proof. destruct c as [[] [] [] [] [] [] [] []]; vm_compute; done. Qed.

Lemma digit_not_sign c :
  is_digit c = true -> Ascii.eqb c "-" = false /\ Ascii.eqb c "+" = false.
Proof. destruct c as [[] [] [] [] [] [] [] []]; vm_compute; done. Qed.

Lemma digit_not_separator c :
  is_digit c = true ->
  negb (Ascii.eqb c "|") = true /\ negb (Ascii.eqb c ":") = true /\
  negb (Ascii.eqb c " ") = true /\ Ascii.eqb c "#" = false.
Proof. destruct c as [[] [] [] [] [] [] [] []]; vm_compute; done. Qed.

Lemma lstrip_fixed sp s :
  all_chars (fun c => negb (sp c)) s = true -> lstrip_with sp s = s.
Proof.
  destruct s as [|c s]; simpl; [done |].
  intros [Hc _]%andb_true_iff. apply negb_true_iff in Hc. by rewrite Hc.
Qed.

Lemma rstrip_fixed sp s :
  all_chars (fun c => negb (sp c)) s = true -> rstrip_with sp s = s.
Proof.
  induction s as [|c s IH]; simpl; [done |].
  intros [Hc Hs]%andb_true_iff. apply negb_true_iff in Hc.
  rewrite (IH Hs), Hc. by destruct s.
Qed.

Lemma strip_fixed sp s :
  all_chars (fun c => negb (sp c)) s = true -> strip_with sp s = s.
Proof.
  intros Hs. unfold strip_with. by rewrite (lstrip_fixed _ _ Hs), rstrip_fixed.
Qed.

Lemma string_of_uint_digits d :
  all_chars is_digit (NilEmpty.string_of_uint d) = true.
Proof. induction d; cbn [NilEmpty.string_of_uint all_chars]; by rewrite ?IHd. Qed.

Lemma parse_digits_uint_acc d acc b :
  d <> Decimal.Nil \/ b = true ->
  parse_digits (Z.pos acc) b (NilEmpty.string_of_uint d)
  = Some (Z.pos (Pos.of_uint_acc d acc)).
Proof.
  revert acc b.
  induction d as [|d IH|d IH|d IH|d IH|d IH|d IH|d IH|d IH|d IH|d IH];
    intros acc b Hb; cbn [NilEmpty.string_of_uint parse_digits Pos.of_uint_acc].
  { destruct Hb as [Hd| ->]; done. }
  all: match goal with
       | |- context [digit_val ?c] =>
           let v := eval vm_compute in (digit_val c) in
           change (digit_val c) with v; cbv iota
       end.
  all: match goal with
       | |- parse_digits ?z true _ = Some (Z.pos (Pos.of_uint_acc _ ?a)) =>
           replace z with (Z.pos a) by lia; apply IH; by right
       end.
Qed.

Lemma parse_digits_uint d b :
  d <> Decimal.Nil \/ b = true ->
  parse_digits 0 b (NilEmpty.string_of_uint d) = Some (Z.of_N (Pos.of_uint d)).
Proof.
  revert b.
  induction d as [|d IH|d IH|d IH|d IH|d IH|d IH|d IH|d IH|d IH|d IH];
    intros b Hb; cbn [NilEmpty.string_of_uint parse_digits Pos.of_uint].
  { destruct Hb as [Hd| ->]; done. }
  all: match goal with
       | |- context [digit_val ?c] =>
           let v := eval vm_compute in (digit_val c) in
           change (digit_val c) with v; cbv iota
       end.
  { apply IH. by right. }
  all: cbn [Z.of_N];
    match goal with
    | |- parse_digits ?z true _ = Some (Z.pos (Pos.of_uint_acc _ ?a)) =>
        change z with (Z.pos a); apply parse_digits_uint_acc; by right
    end.
Qed.

Lemma decimal_eq n :
  exists d, d <> Decimal.Nil /\ decimal n = NilEmpty.string_of_uint d /\
            N.of_uint d = n.
Proof.
  exists (N.to_uint n). split; [|split].
  - destruct n as [|q]; [done |]. apply DecimalPos.Unsigned.to_uint_nonnil.
  - unfold decimal, NilZero.string_of_uint.
    destruct (N.to_uint n) eqn:Hd; try done.
    destruct n as [|q]; [done |].
    by apply DecimalPos.Unsigned.to_uint_nonnil in Hd.
  - apply DecimalN.Unsigned.of_to.
Qed.

Lemma decimal_digits n : all_chars is_digit (decimal n) = true.
Proof.
  destruct (decimal_eq n) as (d & _ & -> & _). apply string_of_uint_digits.
Qed.

Lemma decimal_head n : exists c s, decimal n = String c s /\ is_digit c = true.
Proof.
  pose proof (decimal_digits n) as Hall.
  destruct (decimal_eq n) as (d & Hd & Heq & _). rewrite Heq in *.
  destruct d; try done; cbn [NilEmpty.string_of_uint] in *;
    eexists _, _; (split; [reflexivity | done]).
Qed.

(** [int] reads back the decimal numeral of a natural number. *)
Lemma parse_int_decimal n : parse_int (decimal n) = Some (Z.of_N n).
Proof.
  unfold parse_int. pose proof (decimal_digits n) as Hall.
  rewrite strip_fixed
    by (apply (all_chars_impl is_digit); [|done];
        intros c Hc; by rewrite (digit_not_c_space _ Hc)).
  destruct (decimal_head n) as (c & ds & Heq & Hc).
  destruct (decimal_eq n) as (d & Hd & Hstr & Hval).
  rewrite Heq. destruct (digit_not_sign _ Hc) as [-> ->].
  rewrite <- Heq, Hstr, parse_digits_uint by (by left).
  unfold N.of_uint in Hval. by rewrite Hval.
Qed.

Lemma decimal_no_char n sep :
  (forall c, is_digit c = true -> negb (Ascii.eqb c sep) = true) ->
  no_char sep (decimal n) = true.
Proof.
  intros Hsep. unfold no_char.
  by apply (all_chars_impl is_digit), decimal_digits.
Qed.

Lemma decimal_not_comment n rest :
  startswith (decimal n +:+ rest) "#" = false.
Proof.
  destruct (decimal_head n) as (c & ds & -> & Hc). cbn.
  destruct (digit_not_separator _ Hc) as (_ & _ & _ & ->). done.
Qed.

End DecimalFacts.

Section PublishedLines.
Import Py PyFacts.

Ltac set_ext :=
  apply set_eq; intros ?; rewrite ?elem_of_union, ?elem_of_empty; tauto.

Lemma split4_fields sep f1 f2 f3 f4 :
  no_char sep f1 = true -> no_char sep f2 = true ->
  no_char sep f3 = true -> no_char sep f4 = true ->
  split sep (f1 +:+ String sep (f2 +:+ String sep (f3 +:+ String sep f4)))
  = [f1; f2; f3; f4].
Proof.
  unfold no_char. intros H1 H2 H3 H4.
  by rewrite !split_app, !split_no_sep.
Qed.

Lemma contains_cons_other c s :
  Ascii.eqb c "-" = false -> contains (String c s) "-1" = contains s "-1".
Proof. intros Hc. rewrite contains_unfold. cbn. by rewrite Hc. Qed.

Lemma decimal_no_dash n : all_chars not_dash (decimal n) = true.
Proof.
  apply (all_chars_impl is_digit), decimal_digits.
  intros c Hc. unfold not_dash. by destruct (digit_not_sign _ Hc) as [-> _].
Qed.

Lemma decimal_no_pipe n : no_char "|" (decimal n) = true.
Proof. apply decimal_no_char. intros c Hc. by destruct (digit_not_separator _ Hc). Qed.

Lemma transit_line_fields a b tag :
  no_char "|" tag = true ->
  split "|" (transit_line a b tag) = [decimal a; decimal b; "-1"; tag].
Proof.
  intros Ht.
  change (transit_line a b tag) with
    (decimal a +:+ String "|" (decimal b +:+ String "|" ("-1" +:+ String "|" tag))).
  by apply split4_fields; rewrite ?decimal_no_pipe.
Qed.

Lemma peer_line_fields a b tag :
  no_char "|" tag = true ->
  split "|" (peer_line a b tag) = [decimal a; decimal b; "0"; tag].
Proof.
  intros Ht.
  change (peer_line a b tag) with
    (decimal a +:+ String "|" (decimal b +:+ String "|" ("0" +:+ String "|" tag))).
  by apply split4_fields; rewrite ?decimal_no_pipe.
Qed.

Lemma peer_line_has_no_transit_code a b tag :
  contains tag "-1" = false -> contains (peer_line a b tag) "-1" = false.
Proof.
  intros Ht.
  change (peer_line a b tag) with
    (decimal a +:+ String "|" (decimal b +:+ String "|" (String "0" (String "|" tag)))).
  rewrite contains_app_no_dash by apply decimal_no_dash.
  rewrite contains_cons_other by done.
  rewrite contains_app_no_dash by apply decimal_no_dash.
  by rewrite !contains_cons_other by done.
Qed.

Lemma classify_relationship r cp pl ix ic :
  well_tagged r = true ->
  classify_line (render r) (cp, pl, ix, ic) =
  Ok (match declared_cp_link r with Some l => {[l]} ∪ cp | None => cp end,
      match declared_peer_link r with Some l => {[l]} ∪ pl | None => pl end,
      ix, ic).
Proof.
  destruct r as [a b tag|a b tag]; cbn [well_tagged render declared_cp_link
    declared_peer_link].
  - intros Ht.
    rewrite classify_data_line by apply decimal_not_comment.
    rewrite (contains_transit_field _ _ _ _ (transit_line_fields a b tag Ht)).
    unfold _extract_provider_customers.
    rewrite (transit_line_fields a b tag Ht).
    unfold unpack4, mbind, result_bind.
    by rewrite !(int_Ok _ _ (parse_int_decimal _)).
  - intros [Ht Hc%negb_true_iff]%andb_true_iff.
    rewrite classify_data_line by apply decimal_not_comment.
    rewrite (peer_line_has_no_transit_code a b tag Hc).
    unfold _extract_peers. rewrite (peer_line_fields a b tag Ht).
    unfold unpack4, mbind, result_bind.
    by rewrite !(int_Ok _ _ (parse_int_decimal _)).
Qed.

End PublishedLines.

(** X8: a relationship line written as the published files write it (two
    ASNs in decimal, the code "-1" or "0", a source tag without a pipe
    and, for a peering, without "-1") is always accepted: whatever was
    collected before, a transit line adds the link from the first ASN, as
    provider, to the second, and a peer line the peer link of the two,
    and nothing else changes. *)
Theorem published_line_accepted (r : relationship)
    (cp : gset CPLink) (pl : gset PeerLink) (ix ic : gset Z) :
  well_tagged r = true ->
  classify_line (render r) (cp, pl, ix, ic) =
  match r with
  | Transit a b _ =>
      Ok ({[ {| provider_asn := Z.of_N a; customer_asn := Z.of_N b |} ]} ∪ cp,
          pl, ix, ic)
  | Peering a b _ =>
      Ok (cp, {[new_PeerLink (Z.of_N a) (Z.of_N b)]} ∪ pl, ix, ic)
  end.
Proof.
  intros Hr. rewrite (classify_relationship r cp pl ix ic Hr).
  by destruct r.
Qed.

Lemma published_line_accepted_witness :
  classify_line "3356|174|-1|bgp" no_sets
  = Ok ({[new_CPLink 3356 174]} ∪ ∅, ∅, ∅, ∅).
Proof.
  apply (published_line_accepted (Transit 3356 174 "bgp") ∅ ∅ ∅ ∅).
  reflexivity.
Defined.

(** X9: an input made of such relationship lines only never raises, and
    the pass returns exactly the declared links: the customer-provider
    links of its transit lines, the peer links of its peer lines, and
    empty clique and IXP sets. *)
Theorem published_lines_classified (rs : list relationship) :
  Forall (fun r => well_tagged r = true) rs ->
  _get_ases (render <$> rs)
  = Ok (list_to_set (omap declared_cp_link rs),
        list_to_set (omap declared_peer_link rs), ∅, ∅).
Proof.
  intros Hrs. unfold _get_ases.
  assert (forall cp pl ix ic,
    classify_lines (render <$> rs) (cp, pl, ix, ic)
    = Ok (list_to_set (omap declared_cp_link rs) ∪ cp,
          list_to_set (omap declared_peer_link rs) ∪ pl, ix, ic)) as Hgen.
  { induction Hrs as [|r rs Hr Hrs IH]; intros cp pl ix ic.
    - cbn [fmap list_fmap classify_lines omap list_omap list_to_set].
      by rewrite !(left_id_L ∅ (∪)).
    - cbn [fmap list_fmap classify_lines].
      rewrite (classify_relationship r cp pl ix ic Hr).
      unfold mbind, result_bind. rewrite IH.
      destruct r as [a b tag|a b tag];
        cbn [declared_cp_link declared_peer_link omap list_omap list_to_set];
        apply f_equal, ases_eq; try done;
        apply set_eq; intros ?; rewrite ?elem_of_union; tauto. }
  rewrite Hgen. by rewrite !(right_id_L ∅ (∪)).
Qed.

Lemma published_lines_classified_witness :
  _get_ases ["3356|174|-1|bgp"; "174|1299|0|mlp"]
  = Ok (list_to_set [new_CPLink 3356 174], list_to_set [new_PeerLink 174 1299],
        ∅, ∅).
Proof.
  apply (published_lines_classified
           [Transit 3356 174 "bgp"; Peering 174 1299 "mlp"]).
  repeat constructor.
Defined.

(** ** Clique and IXP declarations *)

Section Declarations.
Import Py PyFacts.

Lemma split_join sep l :
  l <> [] -> Forall (fun w => no_char sep w = true) l ->
  split sep (join sep l) = l.
Proof.
  intros Hne Hall. induction Hall as [|w ws Hw Hws IH]; [done |].
  destruct ws as [|w' ws].
  - cbn [join]. by apply split_no_sep.
  - change (join sep (w :: w' :: ws))
      with (w +:+ String sep (join sep (w' :: ws))).
    rewrite split_app, (split_no_sep _ _ Hw), IH; done.
Qed.

Lemma join_all_chars f sep l :
  f sep = true -> Forall (fun w => all_chars f w = true) l ->
  all_chars f (join sep l) = true.
Proof.
  intros Hsep Hall. induction Hall as [|w ws Hw Hws IH]; [done |].
  destruct ws as [|w' ws]; [done |].
  change (join sep (w :: w' :: ws))
    with (w +:+ String sep (join sep (w' :: ws))).
  rewrite all_chars_app, Hw. cbn [all_chars andb].
  by rewrite Hsep, IH.
Qed.

Lemma rstrip_cons_fixed sp c u :
  u <> "" -> rstrip_with sp u = u -> rstrip_with sp (String c u) = String c u.
Proof. intros Hu Hfix. cbn [rstrip_with]. rewrite Hfix. by destruct u. Qed.

Lemma rstrip_app_fixed sp s t :
  t <> "" -> rstrip_with sp t = t -> rstrip_with sp (s +:+ t) = s +:+ t.
Proof.
  intros Ht Hfix. induction s as [|c s IH]; [done |].
  cbn [String.append]. apply rstrip_cons_fixed; [|done].
  destruct s; [done | discriminate].
Qed.

Lemma numerals_head n ns :
  exists c s, join " " (decimal <$> n :: ns) = String c s /\ is_digit c = true.
Proof.
  destruct (decimal_head n) as (c & s & Heq & Hc).
  destruct ns as [|n' ns].
  - change (join " " (decimal <$> [n])) with (decimal n). by exists c, s.
  - change (join " " (decimal <$> n :: n' :: ns))
      with (decimal n +:+ String " " (join " " (decimal <$> n' :: ns))).
    rewrite Heq. by eexists _, _.
Qed.

Lemma numerals_rstrip ns :
  ns <> [] -> rstrip_with isspace (join " " (decimal <$> ns)) = join " " (decimal <$> ns).
Proof.
  induction ns as [|n ns IH]; [done |]. intros _.
  destruct ns as [|n' ns].
  - cbn [fmap list_fmap join]. apply rstrip_fixed.
    apply (all_chars_impl is_digit), decimal_digits.
    intros c Hc. by rewrite (digit_not_space _ Hc).
  - change (join " " (decimal <$> n :: n' :: ns))
      with (decimal n +:+ String " " (join " " (decimal <$> n' :: ns))).
    destruct (numerals_head n' ns) as (c & s & Heq & _).
    apply rstrip_app_fixed; [done |].
    apply rstrip_cons_fixed; [by rewrite Heq | by apply IH].
Qed.

Lemma numerals_strip ns :
  ns <> [] -> strip (join " " (decimal <$> ns)) = join " " (decimal <$> ns).
Proof.
  intros Hns. unfold strip, strip_with.
  destruct ns as [|n ns]; [done |].
  destruct (numerals_head n ns) as (c & s & Heq & Hc).
  assert (lstrip_with isspace (join " " (decimal <$> n :: ns))
          = join " " (decimal <$> n :: ns)) as ->.
  { rewrite Heq. cbn [lstrip_with]. by rewrite (digit_not_space _ Hc). }
  by apply numerals_rstrip.
Qed.

Lemma add_asns_decimals ns s :
  add_asns (decimal <$> ns) s = Ok (list_to_set (Z.of_N <$> ns) ∪ s).
Proof.
  revert s. induction ns as [|n ns IH]; intros s.
  - cbn [fmap list_fmap add_asns list_to_set]. by rewrite (left_id_L ∅ (∪)).
  - cbn [fmap list_fmap add_asns list_to_set].
    rewrite (int_Ok _ _ (parse_int_decimal n)).
    unfold mbind, result_bind. rewrite IH. f_equal.
    apply set_eq; intros ?; rewrite ?elem_of_union; tauto.
Qed.

Lemma numerals_tail_no_colon ws1 ns ws2 :
  all_chars isspace ws1 = true -> all_chars isspace ws2 = true ->
  all_chars (fun c => negb (Ascii.eqb c ":"))
    (ws1 +:+ join " " (decimal <$> ns) +:+ ws2) = true.
Proof.
  intros H1 H2. rewrite !all_chars_app.
  rewrite (all_chars_impl _ _ ws1 isspace_not_colon H1).
  rewrite (all_chars_impl _ _ ws2 isspace_not_colon H2).
  rewrite join_all_chars; [done.. |].
  apply Forall_fmap, Forall_forall. intros n _.
  apply (decimal_no_char n ":"). intros c Hc.
  by destruct (digit_not_separator _ Hc) as (_ & ? & _).
Qed.

(** The ASNs of a declaration, read from the text after its last colon. *)
Lemma extract_decimals line_head ws1 ns ws2 s :
  ns <> [] ->
  all_chars isspace ws1 = true -> all_chars isspace ws2 = true ->
  _extract_input_clique
    (line_head +:+ ":" +:+ ws1 +:+ join " " (decimal <$> ns) +:+ ws2) s
  = Ok (list_to_set (Z.of_N <$> ns) ∪ s).
Proof.
  intros Hns H1 H2. unfold _extract_input_clique.
  change (line_head +:+ ":" +:+ ws1 +:+ join " " (decimal <$> ns) +:+ ws2)
    with (line_head +:+ String ":" (ws1 +:+ join " " (decimal <$> ns) +:+ ws2)).
  rewrite last_item_split_app by by apply numerals_tail_no_colon.
  unfold mbind, result_bind, strip.
  rewrite (strip_with_spaces _ _ _ _ H1 H2).
  fold (strip (join " " (decimal <$> ns))). rewrite (numerals_strip ns Hns).
  rewrite split_join.
  - apply add_asns_decimals.
  - by destruct ns.
  - apply Forall_fmap, Forall_forall. intros n _.
    apply (decimal_no_char n " "). intros c Hc.
    by destruct (digit_not_separator _ Hc) as (_ & _ & ? & _).
Qed.

Lemma extract_blank line_head ws s :
  all_chars isspace ws = true ->
  _extract_input_clique (line_head +:+ ":" +:+ ws) s = Raise (ValueError_int "").
Proof.
  intros Hws. unfold _extract_input_clique.
  change (line_head +:+ ":" +:+ ws) with (line_head +:+ String ":" ws).
  rewrite last_item_split_app
    by apply (all_chars_impl _ _ ws isspace_not_colon Hws).
  unfold mbind, result_bind, strip, strip_with.
  by rewrite (lstrip_all_spaces _ _ Hws).
Qed.

Lemma rstrip_nonspace_head sp c s :
  sp c = false -> exists r, rstrip_with sp (String c s) = String c r.
Proof.
  intros Hc. cbn [rstrip_with]. rewrite Hc.
  destruct (rstrip_with sp s); by eexists.
Qed.

(** A marker line without a colon is tokenised whole, and its first
    token is the "#". *)
Lemma extract_without_colon c t s :
  isspace c = false ->
  no_char ":" (String "#" (String " " (String c t))) = true ->
  _extract_input_clique (String "#" (String " " (String c t))) s
  = Raise (ValueError_int "#").
Proof.
  intros Hc Hno. unfold _extract_input_clique.
  rewrite (split_no_sep ":" _ Hno). cbn [last_item last].
  unfold mbind, result_bind, strip, strip_with.
  cbn [lstrip_with]. change (isspace "#") with false. cbv iota.
  destruct (rstrip_nonspace_head isspace c t Hc) as [r Hr].
  assert (rstrip_with isspace (String "#" (String " " (String c t)))
          = String "#" (String " " (String c r))) as ->.
  { cbn [rstrip_with] in *. by rewrite Hr. }
  cbn [split]. change (Ascii.eqb "#" " ") with false.
  change (Ascii.eqb " " " ") with true. cbv iota.
  by destruct (split " " (String c r)).
Qed.

End Declarations.

(** X10: a clique or IXP declaration whose text after the last colon is
    a non-empty list of ASNs in decimal, separated by one space and
    surrounded by any whitespace, is always accepted: it adds exactly
    these ASNs to the clique set, respectively the IXP set, and changes
    no other set. *)
Theorem declaration_line_accepted (rest ws1 ws2 : string) (ns : list N)
    (cp : gset CPLink) (pl : gset PeerLink) (ix ic : gset Z) :
  ns <> [] ->
  Py.all_chars Py.isspace ws1 = true ->
  Py.all_chars Py.isspace ws2 = true ->
  classify_line
    ("# input clique" +:+ rest +:+ ":" +:+ ws1 +:+
       Py.join " " (decimal <$> ns) +:+ ws2) (cp, pl, ix, ic)
  = Ok (cp, pl, ix, list_to_set (Z.of_N <$> ns) ∪ ic) /\
  classify_line
    ("# IXP ASes" +:+ rest +:+ ":" +:+ ws1 +:+
       Py.join " " (decimal <$> ns) +:+ ws2) (cp, pl, ix, ic)
  = Ok (cp, pl, list_to_set (Z.of_N <$> ns) ∪ ix, ic).
Proof.
  intros Hns H1 H2. unfold classify_line. split.
  - rewrite PyFacts.startswith_app.
    rewrite <- (PyFacts.append_assoc "# input clique" rest).
    by rewrite (extract_decimals _ ws1 ns ws2 ic Hns H1 H2).
  - change (Py.startswith ("# IXP ASes" +:+ _) "# input clique") with false.
    cbv iota. rewrite PyFacts.startswith_app.
    rewrite <- (PyFacts.append_assoc "# IXP ASes" rest).
    change (_extract_ixp_ases ?l ?s) with (_extract_input_clique l s).
    by rewrite (extract_decimals _ ws1 ns ws2 ix Hns H1 H2).
Qed.

Lemma declaration_line_accepted_witness :
  classify_line "# IXP ASes (3 ASes): 1200 4635 5507" no_sets
  = Ok (∅, ∅, list_to_set (Z.of_N <$> [1200; 4635; 5507]%N) ∪ ∅, ∅).
Proof.
  apply (declaration_line_accepted " (3 ASes)" " " "" [1200; 4635; 5507]%N
           ∅ ∅ ∅ ∅); done.
Defined.

(** X11: a clique or IXP declaration with nothing but whitespace after
    its last colon is an error, not an empty set: the one empty token is
    handed to [int], which raises. *)
Theorem blank_declaration_raises (rest ws : string) (st : ases) :
  Py.all_chars Py.isspace ws = true ->
  classify_line ("# input clique" +:+ rest +:+ ":" +:+ ws) st
    = Raise (ValueError_int "") /\
  classify_line ("# IXP ASes" +:+ rest +:+ ":" +:+ ws) st
    = Raise (ValueError_int "").
Proof.
  intros Hws. destruct st as [[[cp pl] ix] ic]. unfold classify_line. split.
  - rewrite PyFacts.startswith_app.
    rewrite <- (PyFacts.append_assoc "# input clique" rest).
    by rewrite (extract_blank _ ws ic Hws).
  - change (Py.startswith ("# IXP ASes" +:+ _) "# input clique") with false.
    cbv iota. rewrite PyFacts.startswith_app.
    rewrite <- (PyFacts.append_assoc "# IXP ASes" rest).
    change (_extract_ixp_ases ?l ?s) with (_extract_input_clique l s).
    by rewrite (extract_blank _ ws ix Hws).
Qed.

Lemma blank_declaration_raises_witness :
  classify_line "# IXP ASes: " no_sets = Raise (ValueError_int "").
Proof. apply (blank_declaration_raises "" " " no_sets). reflexivity. Defined.

(** X12: a line that starts with the clique or IXP marker and holds no
    colon always raises: the whole line is tokenised, and its first
    token, "#", is no integer. *)
Theorem declaration_without_colon_raises (rest : string) (st : ases) :
  no_char ":" rest = true ->
  classify_line ("# input clique" +:+ rest) st = Raise (ValueError_int "#") /\
  classify_line ("# IXP ASes" +:+ rest) st = Raise (ValueError_int "#").
Proof.
  intros Hrest. destruct st as [[[cp pl] ix] ic]. unfold classify_line. split.
  - rewrite PyFacts.startswith_app.
    change ("# input clique" +:+ rest)
      with (String "#" (String " " (String "i" ("nput clique" +:+ rest)))).
    rewrite extract_without_colon; [done.. |].
    unfold no_char in *. cbn [Py.all_chars]. rewrite PyFacts.all_chars_app, Hrest.
    done.
  - change (Py.startswith ("# IXP ASes" +:+ _) "# input clique") with false.
    cbv iota. rewrite PyFacts.startswith_app.
    change (_extract_ixp_ases ?l ?s) with (_extract_input_clique l s).
    change ("# IXP ASes" +:+ rest)
      with (String "#" (String " " (String "I" ("XP ASes" +:+ rest)))).
    rewrite extract_without_colon; [done.. |].
    unfold no_char in *. cbn [Py.all_chars]. rewrite PyFacts.all_chars_app, Hrest.
    done.
Qed.

Lemma declaration_without_colon_raises_witness :
  classify_line "# input clique 174 209" no_sets = Raise (ValueError_int "#").
Proof.
  apply (declaration_without_colon_raises " 174 209" no_sets). reflexivity.
Defined.

(** * Further properties of the cache-aware fetch *)

Section FetchFacts.
Import Py PyFacts.
Context {BGPDAG : Type} (self : CaidaCollector BGPDAG) (lib : collaborators BGPDAG).

Local Abbreviation dp := (download_path self).
Local Abbreviation cp := (cache_path self).
Local Abbreviation url_or_exn := (resolved self lib).

(** On every exit path [_write_cache_file] leaves alone the files that
    are neither the cache file nor the temporary download. *)
Lemma write_cache_file_frame w p :
  p <> cp -> p <> dp ->
  files (_write_cache_file self lib cp w).2 !! p = files w !! p.
Proof.
  intros Hcp Hdp. rewrite write_cache_file_eq. cbv zeta.
  destruct url_or_exn as [url|e]; [|done].
  destruct (download_file lib url) as [payload|[partial|] e];
    [destruct (bz2_readlines lib payload)|..];
    unfold with_files; cbn [snd files].
  all: rewrite ?lookup_insert_ne by done.
  all: rewrite lookup_delete_ne by done.
  all: by rewrite ?lookup_insert_ne by done.
Qed.

(** When it raises, it leaves the cache file alone as well. *)
Lemma write_cache_file_raise_keeps w e :
  (_write_cache_file self lib cp w).1 = Raise e ->
  files (_write_cache_file self lib cp w).2 !! cp = files w !! cp.
Proof.
  pose proof (cache_path_not_download_path self) as Hne.
  rewrite write_cache_file_eq. cbv zeta.
  destruct url_or_exn as [url|e']; [|done].
  destruct (download_file lib url) as [payload|[partial|] e'];
    [destruct (bz2_readlines lib payload)|..];
    unfold with_files; cbn [fst snd files]; [done |..]; intros _.
  all: rewrite lookup_delete_ne by done.
  all: by rewrite ?lookup_insert_ne by done.
Qed.

Lemma read_file_world cache w :
  (_read_file self lib cache w).2 =
  if bool_decide (is_Some (files w !! cp)) && cache then w
  else (_write_cache_file self lib cp w).2.
Proof.
  rewrite read_file_eq. cbv zeta.
  destruct (_ && _).
  - by destruct (files w !! cp).
  - destruct (_write_cache_file self lib cp w) as [[[]|e] w1]; [|done].
    by destruct (files w1 !! cp).
Qed.

Lemma read_file_frame cache w p :
  p <> cp -> p <> dp ->
  files (_read_file self lib cache w).2 !! p = files w !! p.
Proof.
  intros Hcp Hdp. rewrite read_file_world.
  destruct (_ && _); [done |]. by apply write_cache_file_frame.
Qed.

Lemma run_world cache w :
  (run self lib cache w).2 =
  match (run self lib cache w).1 with
  | Ok bgp_dag =>
      with_files (<[tsv_path self := tsv_of lib bgp_dag]>
                    (files (_read_file self lib cache w).2))
                 (_read_file self lib cache w).2
  | Raise _ => (_read_file self lib cache w).2
  end.
Proof.
  rewrite run_eq.
  destruct (_read_file self lib cache w) as [[file_lines|e] w1]; [|done].
  by destruct (_get_ases file_lines ≫= GraphCls self).
Qed.

Lemma miss_iff cache w :
  bool_decide (is_Some (files w !! cp)) && cache = false <->
  files w !! cp = None \/ cache = false.
Proof.
  destruct (files w !! cp) as [c|] eqn:Hc.
  - rewrite bool_decide_eq_true_2 by eauto. destruct cache; cbn; split;
      try done; try (by right); by intros [|].
  - rewrite bool_decide_eq_false_2 by (by intros [? ?]). cbn.
    split; [by left | done].
Qed.

Lemma lstrip_head sp s :
  match lstrip_with sp s with
  | EmptyString => True
  | String c _ => sp c = false
  end.
Proof.
  induction s as [|c s IH]; [done |]. cbn [lstrip_with].
  by destruct (sp c) eqn:Hc.
Qed.

Lemma rstrip_idem sp s :
  rstrip_with sp (rstrip_with sp s) = rstrip_with sp s.
Proof.
  induction s as [|c s IH]; [done |]. cbn [rstrip_with].
  destruct (rstrip_with sp s) as [|d r] eqn:Hr.
  - destruct (sp c) eqn:Hc; [done |]. cbn [rstrip_with]. by rewrite Hc.
  - change (rstrip_with sp (String c (String d r)))
      with (match rstrip_with sp (String d r) with
            | EmptyString => if sp c then EmptyString else String c EmptyString
            | String x y => String c (String x y)
            end).
    by rewrite IH.
Qed.

(** Stripping a stripped text changes nothing. *)
Lemma strip_idem s : strip (strip s) = strip s.
Proof.
  unfold strip, strip_with. pose proof (lstrip_head isspace s) as Hh.
  destruct (lstrip_with isspace s) as [|c t]; [done |].
  destruct (rstrip_nonspace_head isspace c t Hh) as [r Hr].
  rewrite Hr. cbn [lstrip_with]. rewrite Hh, <- Hr. apply rstrip_idem.
Qed.

Lemma concat_cons x xs :
  String.concat "" (x :: xs) = x +:+ String.concat "" xs.
Proof. destruct xs; [by rewrite append_nil_r | done]. Qed.

Lemma universal_newlines_no_cr s :
  no_char "013" s = true -> universal_newlines s = s.
Proof.
  unfold no_char. induction s as [|c s IH]; [done |].
  cbn [all_chars universal_newlines]. intros [Hc Hs]%andb_true_iff.
  apply negb_true_iff in Hc. by rewrite Hc, IH.
Qed.

Lemma lines_keepends_line t rest :
  no_char "010" t = true ->
  lines_keepends (t +:+ String "010" rest) = (t +:+ String "010" "") :: lines_keepends rest.
Proof.
  unfold no_char. induction t as [|c t IH]; [done |].
  cbn [all_chars String.append lines_keepends]. intros [Hc Ht]%andb_true_iff.
  apply negb_true_iff in Hc. by rewrite Hc, (IH Ht).
Qed.

Lemma text_line_no_cr l : text_line l -> no_char "013" l = true.
Proof.
  intros (t & -> & _ & Hcr). unfold no_char in *.
  by rewrite all_chars_app, Hcr.
Qed.

Lemma concat_no_cr data :
  Forall text_line data -> no_char "013" (String.concat "" data) = true.
Proof.
  induction 1 as [|l ls Hl Hls IH]; [done |].
  rewrite concat_cons. pose proof (text_line_no_cr l Hl) as Hcr.
  unfold no_char in *. by rewrite all_chars_app, Hcr, IH.
Qed.

(** Written one after the other and read back, text lines come out as
    they went in. *)
Lemma readlines_concat data :
  Forall text_line data -> readlines (String.concat "" data) = data.
Proof.
  intros Hdata. unfold readlines.
  rewrite universal_newlines_no_cr by by apply concat_no_cr.
  induction Hdata as [|l ls (t & -> & Hlf & _) Hls IH]; [done |].
  rewrite concat_cons, append_assoc. cbn [String.append].
  by rewrite (lines_keepends_line _ _ Hlf), IH.
Qed.

Lemma get_url_result w :
  (_get_url self lib w).1 = url_or_exn.
Proof. by rewrite get_url_eq. Qed.

Lemma first_match_sound tok hrefs url :
  first_match tok hrefs = Ok url ->
  exists x, x ∈ hrefs /\ contains x tok = true /\ url = prepend +:+ x.
Proof.
  unfold first_match. induction hrefs as [|h hs IH]; [done |].
  cbn [List.filter]. destruct (contains h tok) eqn:Hh.
  - cbn. intros [= <-]. exists h. split; [by left | done].
  - intros (x & Hx & Hc & ->)%IH. exists x. split; [by right | done].
Qed.

(** X20: a URL that [_get_url] returns is the base URL followed by an
    entry of the listing that contains the vintage token; the call sends
    one listing request and touches no file. *)
Theorem get_url_sound (w : world) (url : string) :
  (_get_url self lib w).1 = Ok url ->
  (exists hrefs x, get_hrefs lib prepend = Ok hrefs /\ x ∈ hrefs /\
     contains x (strftime_Ym01 (dl_time self)) = true /\
     url = prepend +:+ x) /\
  net_log (_get_url self lib w).2 = net_log w ++ [ListDir prepend] /\
  files (_get_url self lib w).2 = files w.
Proof.
  rewrite get_url_eq. cbn [fst snd]. unfold resolved, mbind, result_bind.
  destruct (get_hrefs lib prepend) as [hrefs|e]; [|done].
  intros (x & Hx & Hc & ->)%first_match_sound.
  split; [by exists hrefs, x | done].
Qed.

Lemma fetch_fails_raises w e :
  fetch_fails self lib e -> (_write_cache_file self lib cp w).1 = Raise e.
Proof.
  unfold fetch_fails. rewrite write_cache_file_eq. cbv zeta.
  destruct url_or_exn as [url|e']; [|by intros ->].
  destruct (download_file lib url) as [payload|[partial|] e'];
    [by intros -> | by intros -> ..].
Qed.

(** X13: a fetch that fails before the cache file is opened for writing
    (the URL is not resolved, the transfer raises, or the payload is not
    decompressed) is not papered over with the cached file and does not
    damage it: when the cache file is absent or the flag is false,
    [_write_cache_file], [_read_file] and [run] raise that exception, and
    the cache file is afterwards what it was before. *)
Theorem failed_fetch_keeps_cache (cache : bool) (w : world) (e : exn) :
  fetch_fails self lib e ->
  files w !! cp = None \/ cache = false ->
  (_write_cache_file self lib cp w).1 = Raise e /\
  (_read_file self lib cache w).1 = Raise e /\
  (run self lib cache w).1 = Raise e /\
  files (run self lib cache w).2 !! cp = files w !! cp.
Proof.
  intros Hfail%(fetch_fails_raises w) Hmiss%miss_iff.
  assert ((_read_file self lib cache w).1 = Raise e) as Hread.
  { rewrite read_file_eq. cbv zeta. rewrite Hmiss.
    destruct (_write_cache_file self lib cp w) as [[[]|e'] w1]; [done |].
    cbn in *. congruence. }
  assert ((run self lib cache w).1 = Raise e) as Hrun.
  { rewrite run_eq.
    destruct (_read_file self lib cache w) as [[ls|e'] w1]; [done |].
    cbn in *. congruence. }
  split; [done |]. split; [done |]. split; [done |].
  rewrite run_world, Hrun, read_file_world, Hmiss.
  by apply (write_cache_file_raise_keeps w e).
Qed.

(** X14: with the flag true and the cache file there, [_read_file]
    returns the stripped lines of that file and leaves the world as it
    is, and a run sends no request and changes no file but the one at
    [tsv_path]. *)
Theorem cache_hit_touches_only_tsv (w : world) (content : string) :
  files w !! cp = Some content ->
  _read_file self lib true w = (Ok (strip <$> readlines content), w) /\
  net_log (run self lib true w).2 = net_log w /\
  forall p, p <> tsv_path self ->
    files (run self lib true w).2 !! p = files w !! p.
Proof.
  intros Hc. pose proof (read_file_hit self lib content w Hc) as Hread.
  split; [done |]. rewrite run_world, Hread. cbn [snd].
  destruct (run self lib true w).1; [|done].
  split; [done |]. intros p Hp. unfold with_files. cbn [files].
  by rewrite lookup_insert_ne.
Qed.

(** X15: a run that fails before the writer is called ([_read_file]
    raises, or the classifier or the graph builder does) raises that
    exception unchanged, does nothing after [_read_file], and leaves the
    file at [tsv_path] what it was before, provided that file is neither
    the cache file nor the temporary download. *)
Theorem tsv_untouched_before_writer (cache : bool) (w : world) (e : exn) :
  fails_before_writer self lib cache w e ->
  (run self lib cache w).1 = Raise e /\
  (run self lib cache w).2 = (_read_file self lib cache w).2 /\
  (tsv_path self <> cp -> tsv_path self <> dp ->
   files (run self lib cache w).2 !! tsv_path self
   = files w !! tsv_path self).
Proof.
  unfold fails_before_writer. intros Hfail.
  assert ((run self lib cache w).1 = Raise e) as Hrun.
  { rewrite run_eq.
    destruct (_read_file self lib cache w) as [[file_lines|e'] w1];
      cbn [fst] in Hfail; [by rewrite Hfail | by rewrite Hfail]. }
  split; [done |].
  assert ((run self lib cache w).2 = (_read_file self lib cache w).2) as Hw.
  { by rewrite run_world, Hrun. }
  split; [done |]. intros Hcp Hdp. rewrite Hw. by apply read_file_frame.
Qed.

(** X16: a run touches three paths at most: every file other than the
    cache file, the temporary download and the TSV file is after the run
    what it was before, whether the run returns or raises. *)
Theorem run_touches_three_paths (cache : bool) (w : world) (p : string) :
  p <> cp -> p <> dp -> p <> tsv_path self ->
  files (run self lib cache w).2 !! p = files w !! p.
Proof.
  intros Hcp Hdp Htsv. rewrite run_world.
  destruct (run self lib cache w).1 as [g|e].
  - unfold with_files. cbn [files]. rewrite lookup_insert_ne by done.
    by apply read_file_frame.
  - by apply read_file_frame.
Qed.

(** X17: the lines [_read_file] returns carry no whitespace at either
    end: stripping one of them again gives it back. *)
Theorem read_file_lines_stripped (cache : bool) (w : world)
    (lines : list string) :
  (_read_file self lib cache w).1 = Ok lines ->
  Forall (fun l => strip l = l) lines.
Proof.
  rewrite read_file_eq. cbv zeta.
  assert (forall w1,
    (match files w1 !! cp with
     | Some content => (Ok (map strip (readlines content)), w1)
     | None => (Raise (FileNotFoundError cp), w1)
     end).1 = Ok lines -> Forall (fun l => strip l = l) lines) as Hread.
  { intros w1. destruct (files w1 !! cp) as [content|]; [|done].
    cbn [fst]. intros Heq.
    assert (lines = map strip (readlines content)) as -> by congruence.
    apply Forall_forall. intros l (raw & -> & _)%list_elem_of_fmap.
    apply strip_idem. }
  destruct (_ && _); [apply Hread |].
  destruct (_write_cache_file self lib cp w) as [[[]|e] w1]; [|done].
  apply Hread.
Qed.

(** X18: what is downloaded is what is classified: after a fetch that
    succeeds with text lines, [_read_file] returns these lines, each
    stripped, and so does a later call that finds the cache file. *)
Theorem cache_round_trip (cache : bool) (w : world)
    (url payload : string) (data : list string) :
  files w !! cp = None \/ cache = false ->
  url_or_exn = Ok url ->
  download_file lib url = Downloaded payload ->
  bz2_readlines lib payload = Ok data ->
  Forall text_line data ->
  (_read_file self lib cache w).1 = Ok (strip <$> data) /\
  (_read_file self lib true (_read_file self lib cache w).2).1
    = Ok (strip <$> data).
Proof.
  intros Hmiss%miss_iff Hurl Hdl Hbz Hdata.
  rewrite (read_file_after_fetch self lib cache w url payload data Hmiss Hurl Hdl Hbz).
  cbn [fst snd]. rewrite (readlines_concat data Hdata). split; [done |].
  rewrite (read_file_hit self lib (String.concat "" data)).
  - cbn [fst]. by rewrite (readlines_concat data Hdata).
  - unfold with_files. cbn [files]. by rewrite lookup_insert_eq.
Qed.

(** X19: a call of [run] (and so of [_read_file]) only appends to the
    request log, and what it appends is nothing, or one listing request,
    or one listing request followed by one download, of the URL the
    listing resolved to. *)
Theorem run_sends_at_most_one_download (cache : bool) (w : world) :
  exists l,
    net_log (run self lib cache w).2 = net_log w ++ l /\
    net_log (_read_file self lib cache w).2 = net_log w ++ l /\
    (l = [] \/ l = [ListDir prepend] \/
     exists url, url_or_exn = Ok url /\ l = [ListDir prepend; Download url]).
Proof.
  assert (exists l, net_log (_read_file self lib cache w).2 = net_log w ++ l /\
    (l = [] \/ l = [ListDir prepend] \/
     exists url, url_or_exn = Ok url /\ l = [ListDir prepend; Download url]))
    as (l & Hl & Hcases).
  { rewrite read_file_world. destruct (_ && _).
    - exists []. split; [by rewrite app_nil_r | by left].
    - rewrite write_cache_file_eq. cbv zeta. unfold logged, with_files.
      destruct url_or_exn as [url|e] eqn:Hurl.
      + exists [ListDir prepend; Download url]. split; [|right; right; by exists url].
        destruct (download_file lib url) as [payload|[partial|] e];
          [destruct (bz2_readlines lib payload)|..];
          cbn [snd net_log]; by rewrite <- app_assoc.
      + exists [ListDir prepend]. split; [done | by right; left]. }
  exists l. split; [|done]. by rewrite run_log.
Qed.

End FetchFacts.

Section CacheKey.
Context {BGPDAG : Type} (self self' : CaidaCollector BGPDAG)
  (lib : collaborators BGPDAG).

Lemma day_file_inj (d d' : N) :
  (d <= 31)%N -> (d' <= 31)%N ->
  two_digits d +:+ ".txt" = two_digits d' +:+ ".txt" -> d = d'.
Proof.
  set (days := N.of_nat <$> seq 0 32).
  assert (Forall (fun x => Forall (fun y =>
            two_digits x +:+ ".txt" = two_digits y +:+ ".txt" -> x = y) days)
            days) as Hall.
  { apply (bool_decide_unpack _). vm_compute. exact I. }
  assert (forall x, (x <= 31)%N -> x ∈ days) as Hin.
  { intros x Hx. apply list_elem_of_fmap. exists (N.to_nat x).
    split; [lia |]. apply elem_of_seq. lia. }
  intros Hd Hd'.
  apply (proj1 (Forall_forall _ _)
           (proj1 (Forall_forall _ _) Hall d (Hin d Hd)) d' (Hin d' Hd')).
Qed.

(** X21: the cache is kept per day, the download per month. Two
    collectors that differ only in the day of [dl_time] resolve the same
    URL, and look for their cache file at different paths: lines cached
    on one day are not found on another day of the same month. *)
Theorem cache_is_per_day (w : world) :
  cache_dir self = cache_dir self' ->
  year (dl_time self) = year (dl_time self') ->
  month (dl_time self) = month (dl_time self') ->
  (day (dl_time self) <= 31)%N -> (day (dl_time self') <= 31)%N ->
  day (dl_time self) <> day (dl_time self') ->
  _get_url self lib w = _get_url self' lib w /\
  cache_path self <> cache_path self'.
Proof.
  intros Hdir Hy Hm Hd Hd' Hne. split.
  - unfold _get_url, strftime_Ym01. by rewrite Hy, Hm.
  - unfold cache_path, path_join, strftime_Y_m_d_txt.
    rewrite Hdir, Hy, Hm. intros Heq. apply Hne.
    do 6 apply (inj (String.append _)) in Heq.
    by apply day_file_inj.
Qed.

End CacheKey.

(** ** Sample runs of the further properties *)

Lemma failed_fetch_keeps_cache_witness :
  let lib := sample_lib ["20210901.as-rel2.txt.bz2"]
               (Aborted (Some "BZh") (ExternalError "download_file")) (Ok []) in
  let w := cached_world "1|2|-1|bgp" in
  (run sample_collector lib false w).1 = Raise (ExternalError "download_file") /\
  files (run sample_collector lib false w).2 !! cache_path sample_collector
  = files w !! cache_path sample_collector.
Proof.
  intros lib w.
  destruct (failed_fetch_keeps_cache sample_collector lib false w
              (ExternalError "download_file")) as (_ & _ & Hrun & Hkept).
  - reflexivity.
  - right. reflexivity.
  - by split.
Defined.

Lemma cache_hit_touches_only_tsv_witness :
  _read_file sample_collector (sample_lib [] (Downloaded "") (Ok [])) true
    (cached_world ("1|2|-1|bgp" +:+ String "010" "2|3|0|bgp"))
  = (Ok (Py.strip <$> Py.readlines ("1|2|-1|bgp" +:+ String "010" "2|3|0|bgp")),
     cached_world ("1|2|-1|bgp" +:+ String "010" "2|3|0|bgp")).
Proof.
  apply (cache_hit_touches_only_tsv sample_collector
           (sample_lib [] (Downloaded "") (Ok []))).
  vm_compute. reflexivity.
Defined.

Lemma tsv_untouched_before_writer_witness :
  let lib := sample_lib [] (Downloaded "") (Ok []) in
  let w := {| files := {[ cache_path sample_collector := "1|2|-1";
                          tsv_path sample_collector := "rows of an older run" ]};
              net_log := [] |} in
  (run sample_collector lib true w).1 = Raise (ValueError_unpack_not_enough 4 3) /\
  files (run sample_collector lib true w).2 !! tsv_path sample_collector
  = Some "rows of an older run".
Proof.
  intros lib w.
  destruct (tsv_untouched_before_writer sample_collector lib true w
              (ValueError_unpack_not_enough 4 3)) as (Hrun & _ & Hkept).
  - vm_compute. reflexivity.
  - split; [exact Hrun |]. rewrite Hkept.
    + vm_compute. reflexivity.
    + intros Heq. vm_compute in Heq. discriminate Heq.
    + intros Heq. vm_compute in Heq. discriminate Heq.
Defined.

Lemma run_touches_three_paths_witness :
  files (run sample_collector
           (sample_lib ["20210901.as-rel2.txt.bz2"] (Downloaded "BZh")
              (Ok two_text_lines)) false (cached_world "")).2 !! "/etc/hostname"
  = Some "collector".
Proof.
  rewrite (run_touches_three_paths sample_collector
             (sample_lib ["20210901.as-rel2.txt.bz2"] (Downloaded "BZh")
                (Ok two_text_lines)) false (cached_world "") "/etc/hostname").
  - vm_compute. reflexivity.
  - intros H. vm_compute in H. discriminate H.
  - intros H. vm_compute in H. discriminate H.
  - intros H. vm_compute in H. discriminate H.
Defined.

Lemma read_file_lines_stripped_witness :
  Forall (fun l => Py.strip l = l) ["1|2|-1|bgp"; "2|3|0|bgp"].
Proof.
  apply (read_file_lines_stripped sample_collector
           (sample_lib [] (Downloaded "") (Ok [])) true
           (cached_world (" 1|2|-1|bgp" +:+ String "010" "2|3|0|bgp  "))).
  vm_compute. reflexivity.
Defined.

Lemma cache_round_trip_witness :
  (_read_file sample_collector
     (sample_lib ["20210901.as-rel2.txt.bz2"] (Downloaded "BZh")
        (Ok two_text_lines)) true empty_world).1
  = Ok (Py.strip <$> two_text_lines).
Proof.
  apply (cache_round_trip sample_collector
           (sample_lib ["20210901.as-rel2.txt.bz2"] (Downloaded "BZh")
              (Ok two_text_lines)) true empty_world
           (prepend +:+ "20210901.as-rel2.txt.bz2") "BZh" two_text_lines).
  - left. reflexivity.
  - reflexivity.
  - reflexivity.
  - reflexivity.
  - repeat constructor; eexists; (split; [reflexivity | split; reflexivity]).
Defined.

Lemma get_url_sound_witness :
  net_log (_get_url sample_collector
             (sample_lib ["20210901.as-rel2.txt.bz2"] (Downloaded "") (Ok []))
             empty_world).2
  = net_log empty_world ++ [ListDir prepend].
Proof.
  apply (get_url_sound sample_collector
           (sample_lib ["20210901.as-rel2.txt.bz2"] (Downloaded "") (Ok []))
           empty_world (prepend +:+ "20210901.as-rel2.txt.bz2")).
  reflexivity.
Defined.

Lemma cache_is_per_day_witness :
  cache_path sample_collector <> cache_path next_day_collector.
Proof.
  apply (cache_is_per_day sample_collector next_day_collector
           (sample_lib [] (Downloaded "") (Ok [])) empty_world);
    try reflexivity; vm_compute; discriminate.
Defined.
